(** * great_expectations: string-integer "increasing" metric and Spark
      column-type introspection

    A shallow embedding of

    - [great_expectations/expectations/metrics/table_metrics/table_column_types.py]
      ([_get_spark_column_metadata], [_get_sqlalchemy_column_metadata],
      [ColumnTypes._spark] and [ColumnTypes._sqlalchemy]), and
    - [contrib/experimental/.../expect_column_values_to_be_string_integers_increasing.py]
      ([ColumnValuesStringIntegersIncreasing._pandas], [._spark],
      [._get_evaluation_dependencies],
      [ExpectColumnValuesToBeStringIntegersIncreasing._validate] and
      [._validate_success_key]).

    Python dictionaries are [gmap string _], Python strings that are read
    character by character are lists of code points, Python exceptions are
    the error side of [result], numpy and Spark fixed-width integers are
    [Z] with the width written out. *)

From Stdlib Require Import ZArith List Bool Ascii String Sorted Lia.
From stdpp Require Import gmap strings list fin_maps.

Set Warnings "-register-all".

Open Scope string_scope.
Open Scope Z_scope.
Open Scope list_scope.

(** ** Python values, exceptions and the exception monad *)

Module Py.

(** The exceptions the modelled code raises, by class.
    [ValueError_invalid_literal s] is the [ValueError] of [int(s)],
    "invalid literal for int() with base 10: " followed by [repr(s)]; [s] is
    the offending string as its sequence of code points. *)
Inductive exn : Type :=
| TypeError (msg : string)
| ValueError (msg : string)
| KeyError (key : string)
| IndexError (msg : string)
| OverflowError (msg : string)
| ValueError_invalid_literal (literal : list N).

Inductive result (A : Type) : Type :=
| Ok (a : A)
| Raise (e : exn).
Arguments Ok {A} a.
Arguments Raise {A} e.

Definition bind {A B} (r : result A) (k : A -> result B) : result B :=
  match r with
  | Ok a => k a
  | Raise e => Raise e
  end.

Definition raises {A} (r : result A) : Prop := exists e, r = Raise e.

(** The values that occur in kwargs dictionaries. *)
Inductive value : Type :=
| VNone
| VBool (b : bool)
| VInt (n : Z)
| VStr (s : string).

#[global] Instance value_eq_dec : EqDecision value.
Proof. solve_decision. Defined.

(** Truth value testing ([bool(v)]). *)
Definition truthy (v : value) : bool :=
  match v with
  | VNone => false
  | VBool b => b
  | VInt n => negb (n =? 0)
  | VStr s => negb (String.eqb s "")
  end.

(** [d.get(k) or False], then used as a condition. *)
Definition get_or_False (d : gmap string value) (k : string) : bool :=
  match d !! k with
  | Some v => truthy v
  | None => false
  end.

(** [c in s] for a one-character [c]. *)
Fixpoint contains (c : ascii) (s : string) : bool :=
  match s with
  | EmptyString => false
  | String a s' => if Ascii.eqb a c then true else contains c s'
  end.

End Py.

Import Py.

Notation "x <- r ;; k" := (Py.bind r (fun x => k))
  (at level 100, r at next level, right associativity).

(** ** pyspark.sql.types *)

Module SparkTypes.

Inductive AtomicType : Type :=
| NullType | StringType | BinaryType | BooleanType | DateType
| TimestampType | DoubleType | FloatType | ByteType | ShortType
| IntegerType | LongType.

(** The objects [_get_spark_column_metadata] can be handed.  The function
    tests its argument with [isinstance], so the struct container, the
    struct field and everything else live in one type; [NotSpark] stands
    for any Python object that is no pyspark type at all. *)
Inductive obj : Type :=
| Atomic (t : AtomicType)
| ArrayType (elementType : obj) (containsNull : bool)
| MapType (keyType valueType : obj) (valueContainsNull : bool)
| StructType (fields : list obj)
| StructField (name : string) (dataType : obj) (nullable : bool)
| NotSpark (v : Py.value).

(** [isinstance(o, sparktypes.StringType)] *)
Definition is_StringType (o : obj) : bool :=
  match o with
  | Atomic StringType => true
  | _ => false
  end.

Definition is_StructType (o : obj) : bool :=
  match o with
  | StructType _ => true
  | _ => false
  end.

Definition is_StructField (o : obj) : bool :=
  match o with
  | StructField _ _ _ => true
  | _ => false
  end.

(** What pyspark's constructors assert: the fields of a struct are
    [StructField]s and the data type of a field is a data type. *)
Fixpoint is_DataType (o : obj) : bool :=
  match o with
  | Atomic _ => true
  | ArrayType e _ => is_DataType e
  | MapType k v _ => is_DataType k && is_DataType v
  | StructType fields =>
      forallb (fun f => match f with
                        | StructField _ dt _ => is_DataType dt
                        | _ => false
                        end) fields
  | StructField _ _ _ => false
  | NotSpark _ => false
  end.

Definition is_field (o : obj) : bool :=
  match o with
  | StructField _ dt _ => is_DataType dt
  | _ => false
  end.

End SparkTypes.

Import SparkTypes.

(** ** table.column_types on Spark: [_get_spark_column_metadata] *)

Module ColumnTypes.

(** One [{"name": ..., "type": ...}] dictionary of the result. *)
Record column_metadata : Type := mk_metadata {
  md_name : string;
  md_type : obj
}.

Definition unrecognized {A} : result A :=
  Raise (ValueError "unrecognized field type").

(** [parent_name = f"{parent_name}."] when [parent_name != ""]. *)
Definition dot_suffix (parent_name : string) : string :=
  if String.eqb parent_name "" then parent_name else parent_name +:+ ".".

(** The name given to a field under the (already dotted) prefix. *)
Definition field_entry_name (parent_name name : string) : string :=
  if Py.contains "."%char name
  then parent_name +:+ "`" +:+ name +:+ "`"
  else parent_name +:+ name.

(** [for child in children: cols += f(child)] *)
Fixpoint extend_with {A B} (f : A -> result (list B)) (children : list A)
    (cols : list B) : result (list B) :=
  match children with
  | [] => Ok cols
  | child :: rest => more <- f child ;; extend_with f rest (cols ++ more)
  end.

(** [_get_spark_column_metadata(field, parent_name, include_nested)].
    [sparktypes] is the truth value of the optional pyspark import.  The
    loop over [field.fields] of the struct branch calls the function
    without [include_nested], so the callee runs with the default [True];
    the loop of the field branch passes [include_nested] on. *)
Fixpoint _get_spark_column_metadata (sparktypes : bool) (field : obj)
    (parent_name : string) (include_nested : bool) {struct field}
  : result (list column_metadata) :=
  let cols : list column_metadata := [] in
  let parent_name := dot_suffix parent_name in
  match field with
  | StructType fields =>
      if sparktypes then
        extend_with
          (fun child =>
             _get_spark_column_metadata sparktypes child parent_name true)
          fields cols
      else unrecognized
  | StructField name dataType _ =>
      if sparktypes then
        let name' := field_entry_name parent_name name in
        let field_metadata := mk_metadata name' dataType in
        let cols := cols ++ [field_metadata] in
        match dataType with
        | StructType fields =>
            if include_nested && sparktypes then
              extend_with
                (fun child =>
                   _get_spark_column_metadata sparktypes child
                     (parent_name +:+ name) include_nested)
                fields cols
            else Ok cols
        | _ => Ok cols
        end
      else unrecognized
  | _ => unrecognized
  end.

(** *** The naming rule of the flattened schema, stated on paths

    The specification names a nested field by the names of the fields
    above it, outermost first, joined with dots; a field name that itself
    holds a dot is put between backticks. *)

Definition quoted (name : string) : string :=
  if Py.contains "."%char name then "`" +:+ name +:+ "`" else name.

Definition nested_name (parents : list string) (own : string) : string :=
  String.concat "." (parents ++ [quoted own]).

(** The entries of one field below the path [parents]: the field itself,
    then the entries of the fields of its struct type, if it has one. *)
Fixpoint entries (parents : list string) (field : obj)
  : list column_metadata :=
  match field with
  | StructField name dataType _ =>
      mk_metadata (nested_name parents name) dataType ::
      match dataType with
      | StructType fields => flat_map (entries (parents ++ [name])) fields
      | _ => []
      end
  | _ => []
  end.

(** A field of a schema as Spark builds it: a [StructField] with a name,
    whose struct type, if it has one, holds such fields again. *)
Fixpoint schema_field (o : obj) : bool :=
  match o with
  | StructField name dataType _ =>
      negb (String.eqb name "") &&
      match dataType with
      | StructType fields => forallb schema_field fields
      | _ => true
      end
  | _ => false
  end.

(** [field_under parents f fields]: the field [f] is reached from the
    schema fields [fields] by going down through the struct fields named
    [parents], outermost first. *)
Inductive field_under : list string -> obj -> list obj -> Prop :=
| under_here (f : obj) (fields : list obj) :
    In f fields -> field_under [] f fields
| under_struct (p : string) (sub : list obj) (b : bool) (ps : list string)
    (f : obj) (fields : list obj) :
    In (StructField p (StructType sub) b) fields ->
    field_under ps f sub ->
    field_under (p :: ps) f fields.

(** [field.dataType.fields] when the data type is a struct. *)
Definition fields_of (o : obj) : list obj :=
  match o with
  | StructType fields => fields
  | _ => []
  end.

(** A path all of whose names are non-empty. *)
Definition named (ps : list string) : Prop := Forall (fun p => p <> "") ps.

(** A path whose outermost name, if it has one, is not empty. *)
Definition outer_named (ps : list string) : Prop :=
  match ps with
  | [] => True
  | p :: _ => p <> ""
  end.

End ColumnTypes.

Import ColumnTypes.

(** ** The "increasing" metric on strings of digits *)

Module Increasing.

(** *** Strings and fixed-width integers *)

(** A Python [str] is a sequence of Unicode code points. *)
Definition str : Type := list N.

(** The [str] of an ASCII literal. *)
Definition text (s : string) : str :=
  map N_of_ascii (list_ascii_of_string s).

Inductive decimal_digit : Type :=
| D0 | D1 | D2 | D3 | D4 | D5 | D6 | D7 | D8 | D9.

Definition digit_value (d : decimal_digit) : Z :=
  match d with
  | D0 => 0 | D1 => 1 | D2 => 2 | D3 => 3 | D4 => 4
  | D5 => 5 | D6 => 6 | D7 => 7 | D8 => 8 | D9 => 9
  end.

(** The digit at offset [n] of a block of ten decimal digits. *)
Definition nth_digit (n : N) : decimal_digit :=
  match n with
  | 0%N => D0 | 1%N => D1 | 2%N => D2 | 3%N => D3 | 4%N => D4
  | 5%N => D5 | 6%N => D6 | 7%N => D7 | 8%N => D8 | _ => D9
  end.

(** What the Unicode character database says of a character, as far as
    [str.isdigit] and [int] ask: a decimal digit with its value
    (Numeric_Type=Decimal), another digit such as a superscript
    (Numeric_Type=Digit), or no digit. *)
Inductive numeric_type : Type :=
| Decimal (d : decimal_digit)
| Digit
| NotDigit.

Definition INT64_MAX : Z := 2 ^ 63 - 1.
Definition INT32_MIN : Z := - 2 ^ 31.
Definition INT32_MAX : Z := 2 ^ 31 - 1.

(** Two's complement wrap-around of a [bits]-wide signed integer. *)
Definition wrap (bits : Z) (z : Z) : Z :=
  (z + 2 ^ (bits - 1)) mod 2 ^ bits - 2 ^ (bits - 1).

Definition cast_error {A} : result A :=
  Raise (TypeError "Column must be a string-type capable of being cast to int.").

(** [d[k]] *)
Definition getitem {V} (d : gmap string V) (k : string) : result V :=
  match d !! k with
  | Some v => Ok v
  | None => Raise (KeyError k)
  end.

(** [np.diff(a)] is [a[1:] - a[:-1]] in 64-bit arithmetic. *)
Definition np_diff (a : list Z) : list Z :=
  zip_with (fun hi lo => wrap 64 (hi - lo)) (tail a) (removelast a).

(** *** The array-vectorized variant, [_pandas] *)

Section Pandas.

(** The Unicode character database for the code points from U+0100 on,
    the Arabic-Indic digits apart: the part of the table that is not
    written out below. *)
Variable ucd : N -> numeric_type.

(** ASCII and Latin-1 hold the digits 0 to 9 and the superscripts two,
    three and one (U+00B2, U+00B3, U+00B9); U+0660 to U+0669 are the
    Arabic-Indic digits. *)
Definition numeric_type_of (c : N) : numeric_type :=
  if ((48 <=? c) && (c <=? 57))%N then Decimal (nth_digit (c - 48))
  else if ((c =? 178) || (c =? 179) || (c =? 185))%N then Digit
  else if (c <? 256)%N then NotDigit
  else if ((1632 <=? c) && (c <=? 1641))%N then Decimal (nth_digit (c - 1632))
  else ucd c.

Definition is_digit (c : N) : bool :=
  match numeric_type_of c with
  | NotDigit => false
  | _ => true
  end.

Definition is_decimal (c : N) : bool :=
  match numeric_type_of c with
  | Decimal _ => true
  | _ => false
  end.

Definition decimal_value (c : N) : Z :=
  match numeric_type_of c with
  | Decimal d => digit_value d
  | _ => 0
  end.

(** [s.isdigit()]: at least one character, all of them digits. *)
Definition str_isdigit (s : str) : bool :=
  match s with
  | [] => false
  | _ :: _ => forallb is_digit s
  end.

(** [s.isdecimal()]: at least one character, all of them decimal digits.
    These are the strings of digits that [int] reads. *)
Definition str_isdecimal (s : str) : bool :=
  match s with
  | [] => false
  | _ :: _ => forallb is_decimal s
  end.

Fixpoint int_from (acc : Z) (s : str) : Z :=
  match s with
  | [] => acc
  | c :: s' => int_from (10 * acc + decimal_value c) s'
  end.

(** [int(s)] for a string of decimal digits. *)
Definition int (s : str) : Z := int_from 0 s.

(** [_column.astype(int)] on strings that have passed [isdigit]: every
    string is read by [int], which raises on a digit that is no decimal
    digit, and becomes a 64-bit integer; a value that does not fit
    raises. *)
Fixpoint astype_int (_column : list str) : result (list Z) :=
  match _column with
  | [] => Ok []
  | s :: rest =>
      if str_isdecimal s then
        if int s <=? INT64_MAX then
          tl <- astype_int rest ;; Ok (int s :: tl)
        else Raise (OverflowError "Python int too large to convert to C long")
      else Raise (ValueError_invalid_literal s)
  end.

(** The column handed to [_pandas] holds strings only: the
    [column_function_partial] wrapper has removed the null rows. *)
Definition _pandas (_column : list str) (kwargs : gmap string value)
  : result (list bool) :=
  temp_column <- (if forallb str_isdigit _column
                  then astype_int _column
                  else cast_error) ;;
  let series_diff := np_diff temp_column in
  let strictly := get_or_False kwargs "strictly" in
  if strictly
  then Ok (map (fun d => d >? 0) series_diff)
  else Ok (map (fun d => d >=? 0) series_diff).

(** A string of decimal digits whose value is at most [bound]. *)
Definition digits_upto (bound : Z) (s : str) : bool :=
  str_isdecimal s && (int s <=? bound).

End Pandas.

(** An excerpt of the character database from U+0100 on, for the worked
    examples: the Extended Arabic-Indic digits (U+06F0 to U+06F9), the
    Devanagari digits (U+0966 to U+096F) and the fullwidth digits (U+FF10
    to U+FF19) are decimal digits; the superscripts four to nine (U+2074 to
    U+2079) and the circled digits one to nine (U+2460 to U+2468) are
    digits that are no decimal digits. *)
Definition ucd_excerpt (c : N) : numeric_type :=
  if ((1776 <=? c) && (c <=? 1785))%N then Decimal (nth_digit (c - 1776))
  else if ((2406 <=? c) && (c <=? 2415))%N then Decimal (nth_digit (c - 2406))
  else if ((65296 <=? c) && (c <=? 65305))%N then Decimal (nth_digit (c - 65296))
  else if ((8308 <=? c) && (c <=? 8313))%N then Digit
  else if ((9312 <=? c) && (c <=? 9320))%N then Digit
  else NotDigit.

(** *** The distributed-windowed variant, [_spark] *)

(** Spark column expressions, row by row: a value or null. *)
Definition isNull {A} (v : option A) : bool :=
  match v with
  | None => true
  | Some _ => false
  end.

Definition sql_sub (a b : option Z) : option Z :=
  match a, b with
  | Some x, Some y => Some (wrap 32 (x - y))
  | _, _ => None
  end.

Definition sql_le (a : option Z) (k : Z) : option bool :=
  match a with
  | Some x => Some (x <=? k)
  | None => None
  end.

Definition sql_lt (a : option Z) (k : Z) : option bool :=
  match a with
  | Some x => Some (x <? k)
  | None => None
  end.

(** [F.when(c, a).otherwise(b)]: [a] where [c] is true, [b] where it is
    false or null. *)
Definition when_otherwise {A} (c : option bool) (a b : A) : A :=
  match c with
  | Some true => a
  | _ => b
  end.

(** [F.lag(column).over(Window.orderBy(F.lit("constant")))]: one
    unpartitioned window; each row sees the value of the row before it,
    the first row sees null.  The list order is the order in which the
    window delivers the rows. *)
Definition lag {A} (column : list (option A)) : list (option A) :=
  match column with
  | [] => []
  | _ :: _ => None :: removelast column
  end.

(** What [execution_engine.get_compute_domain(metric_domain_kwargs,
    domain_type=COLUMN)] returned: the data frame, of which only the cells
    of the column named [metric_domain_kwargs["column"]] are read, and the
    two kwargs dictionaries that are handed back unchanged. *)
Record compute_domain : Type := mk_compute_domain {
  df_column : list (option str);
  compute_domain_kwargs : gmap string value;
  accessor_domain_kwargs : gmap string value
}.

(** The value a map metric is stored under. *)
Definition metric_value : Type :=
  list bool * gmap string value * gmap string value.

(** A string of the ASCII digits 0 to 9, and its value. *)
Definition ascii_digits (s : str) : bool :=
  match s with
  | [] => false
  | _ :: _ => forallb (fun c => ((48 <=? c) && (c <=? 57))%N) s
  end.

Definition ascii_int (s : str) : Z :=
  fold_left (fun acc c => 10 * acc + (Z.of_N c - 48)) s 0.

Section Spark.

(** [cast(IntegerType())] follows Spark's legacy (non-ANSI) rules: a
    string that is no integer literal, or whose value does not fit 32
    bits, becomes null.  Spark reads the bytes of the string: a string of
    the ASCII digits 0 to 9 is the literal of its value, a string that
    holds a character outside ASCII is no literal, and what Spark reads
    out of the other ASCII strings (blanks around the number, a sign, a
    fraction) is [cast_other]. *)
Variable cast_other : str -> option Z.

Definition cast_IntegerType (cell : option str) : option Z :=
  match cell with
  | None => None
  | Some s =>
      match (if ascii_digits s then Some (ascii_int s)
             else if existsb (fun c => (128 <=? c)%N) s then None
             else cast_other s) with
      | Some n =>
          if (INT32_MIN <=? n) && (n <=? INT32_MAX) then Some n else None
      | None => None
      end
  end.

Definition _spark (domain : compute_domain)
    (metric_domain_kwargs metric_value_kwargs : gmap string value)
    (metrics : gmap string (list column_metadata))
  : result metric_value :=
  column_name <- getitem metric_domain_kwargs "column" ;;
  table_columns <- getitem metrics "table.column_types" ;;
  column_metadata <-
    match List.filter (fun col => bool_decide (VStr (md_name col) = column_name))
            table_columns with
    | col :: _ => Ok col
    | [] => Raise (IndexError "list index out of range")
    end ;;
  column <- (if is_StringType (md_type column_metadata)
             then Ok (map cast_IntegerType (df_column domain))
             else cast_error) ;;
  if existsb isNull column then cast_error else
  let diff := zip_with sql_sub column (lag column) in
  let diff := map (fun d => when_otherwise (Some (isNull d)) (Some 1) d) diff in
  strictly <- getitem metric_value_kwargs "strictly" ;;
  let diff :=
    if bool_decide (strictly = VBool true)
    then map (fun d => when_otherwise (sql_le d 0) false true) diff
    else map (fun d => when_otherwise (sql_lt d 0) false true) diff in
  Ok (tail diff, compute_domain_kwargs domain, accessor_domain_kwargs domain).

End Spark.

(** *** Dependencies *)

Record MetricConfiguration : Type := mk_MetricConfiguration {
  metric_name : string;
  metric_domain_kwargs : gmap string value;
  metric_value_kwargs : gmap string value
}.

Section Dependencies.

(** [super()._get_evaluation_dependencies(metric, ...)], the
    dependencies the base metric provider declares. *)
Variable super_get_evaluation_dependencies :
  MetricConfiguration -> gmap string MetricConfiguration.

Definition _get_evaluation_dependencies (metric : MetricConfiguration)
  : gmap string MetricConfiguration :=
  let dependencies := super_get_evaluation_dependencies metric in
  let table_domain_kwargs : gmap string value :=
    filter (fun kv => kv.1 <> "column") (metric_domain_kwargs metric) in
  <["table.column_types" :=
      mk_MetricConfiguration "table.column_types" table_domain_kwargs
        {["include_nested" := VBool true]}]> dependencies.

End Dependencies.

(** *** The verdict, [_validate] *)

(** [all(mask)] *)
Definition all (mask : list bool) : bool := forallb (fun b => b) mask.

(** [np.unique(mask, return_counts=True)]: sort the array, keep one value
    per run of equal values and count the run. *)
Definition bool_leb (a b : bool) : bool := implb a b.

Fixpoint insert_sorted (b : bool) (l : list bool) : list bool :=
  match l with
  | [] => [b]
  | x :: r => if bool_leb b x then b :: l else x :: insert_sorted b r
  end.

Definition np_sort (ar : list bool) : list bool := foldr insert_sorted [] ar.

Fixpoint runs (sorted : list bool) : list (bool * nat) :=
  match sorted with
  | [] => []
  | x :: r =>
      match runs r with
      | (y, n) :: rs => if Bool.eqb x y then (y, S n) :: rs
                        else (x, 1%nat) :: (y, n) :: rs
      | [] => [(x, 1%nat)]
      end
  end.

Definition np_unique_counts (ar : list bool) : list bool * list nat :=
  let rs := runs (np_sort ar) in (map fst rs, map snd rs).

Record ExpectationValidationResult : Type := mk_result {
  success : bool;
  observed_value : list bool * list nat
}.

Section Validate.

(** [MetricPartialFunctionTypeSuffixes.MAP.value] *)
Variable MAP : string.

Definition _validate (metrics : gmap string metric_value)
  : result ExpectationValidationResult :=
  match metrics !! ("column_values.string_integers.increasing." +:+ MAP) with
  | None => Raise (TypeError "'NoneType' object is not subscriptable")
  | Some string_integers_increasing =>
      let mask := string_integers_increasing.1.1 in
      let success := all mask in
      Ok (mk_result success (np_unique_counts mask))
  end.

End Validate.

(** The checks [_spark] makes before it reads the data succeed: the domain
    names a column, [table.column_types] has been computed, and the first
    entry of that name has the string type. *)
Definition string_column (metric_domain_kwargs : gmap string value)
    (metrics : gmap string (list column_metadata)) : bool :=
  match metric_domain_kwargs !! "column", metrics !! "table.column_types" with
  | Some column_name, Some table_columns =>
      match List.filter
              (fun col => bool_decide (VStr (md_name col) = column_name))
              table_columns with
      | col :: _ => is_StringType (md_type col)
      | [] => false
      end
  | _, _ => false
  end.

(** A string of ASCII digits whose value is at most [bound]. *)
Definition ascii_digits_upto (bound : Z) (s : str) : bool :=
  ascii_digits s && (ascii_int s <=? bound).

End Increasing.

Import Increasing.

(** ** Exceptions of great_expectations and the outcome of the code that
       raises them *)

Module GE.

Inductive exn : Type :=
| GreatExpectationsError (msg : string)
| InvalidExpectationKwargsError (msg : string)
| AttributeError (msg : string).

Inductive outcome (A : Type) : Type :=
| Return (a : A)
| Throw (e : exn).
Arguments Return {A} a.
Arguments Throw {A} e.

End GE.

(** ** The table.column_types metric provider, [ColumnTypes] *)

Module ColumnTypesMetric.

Import GE.

(** [ColumnTypes._spark]: [df.schema] is flattened with the
    [include_nested] the value kwargs hold. *)
Definition _spark (sparktypes : bool) (df_schema : obj)
    (metric_value_kwargs : gmap string value)
  : result (list column_metadata) :=
  include_nested <- getitem metric_value_kwargs "include_nested" ;;
  _get_spark_column_metadata sparktypes df_schema "" (truthy include_nested).

(** The data types of a field and of the fields nested in it, the field
    first. *)
Fixpoint field_types (field : obj) : list obj :=
  match field with
  | StructField _ dataType _ =>
      dataType ::
      match dataType with
      | StructType fields => flat_map field_types fields
      | _ => []
      end
  | _ => []
  end.

(** [batch_data.selectable]: the text of a custom query (a
    [TextClause], which has neither a [name] nor a [schema] attribute), a
    table with its name and schema, or a selectable of another class with
    the [name] and [schema] attributes it has ([None] where it has no
    attribute of that name). *)
Inductive selectable : Type :=
| TextClause (text : string)
| Table (name : string) (schema : option string)
| OtherSelectable (class_name : string) (name : option string)
    (schema : option (option string)).

Record SqlAlchemyBatchData : Type := mk_batch_data {
  batch_selectable : selectable;
  source_table_name : option string;
  source_schema_name : option string
}.

(** What is handed to [get_sqlalchemy_column_metadata] as
    [table_selectable]: the query itself or the name of a table. *)
Inductive table_selectable : Type :=
| Query (text : string)
| Named (name : string).

(** [execution_engine.batch_manager] *)
Record batch_manager : Type := mk_batch_manager {
  active_batch_data_id : option string;
  batch_data_cache : gmap string SqlAlchemyBatchData
}.

(** [batch_data_cache.get(batch_id)]: the keys of the cache are strings. *)
Definition cache_get (cache : gmap string SqlAlchemyBatchData)
    (batch_id : value) : option SqlAlchemyBatchData :=
  match batch_id with
  | VStr s => cache !! s
  | _ => None
  end.

(** [metric_domain_kwargs.get("batch_id")] is [None]. *)
Definition no_batch_id (metric_domain_kwargs : gmap string value) : Prop :=
  metric_domain_kwargs !! "batch_id" = None \/
  metric_domain_kwargs !! "batch_id" = Some VNone.

Section SqlAlchemy.

(** [great_expectations.expectations.metrics.util.
    get_sqlalchemy_column_metadata(engine, table_selectable, schema_name)]:
    it returns the metadata or raises. *)
Variables Engine Metadata : Type.
Variable get_sqlalchemy_column_metadata :
  Engine -> table_selectable -> option string -> outcome Metadata.

(** [o.attr] on an object of class [class_name]. *)
Definition getattr {A} (class_name attr : string) (a : option A) : outcome A :=
  match a with
  | Some x => Return x
  | None =>
      Throw (AttributeError
               ("'" +:+ class_name +:+ "' object has no attribute '"
                +:+ attr +:+ "'"))
  end.

(** The batch does not name the source: [a] is [None] or empty, so that
    [a or o.attr] reads the attribute. *)
Definition absent (a : option string) : Prop := a = None \/ a = Some "".

(** [selectable.name] and [selectable.schema] *)
Definition selectable_name (s : selectable) : outcome string :=
  match s with
  | TextClause _ => getattr "TextClause" "name" None
  | Table name _ => Return name
  | OtherSelectable class_name name _ => getattr class_name "name" name
  end.

Definition selectable_schema (s : selectable) : outcome (option string) :=
  match s with
  | TextClause _ => getattr "TextClause" "schema" None
  | Table _ schema => Return schema
  | OtherSelectable class_name _ schema => getattr class_name "schema" schema
  end.

(** [a or o.attr]: [a] unless it is [None] or empty; the attribute is
    read only then. *)
Definition or_attr {A} (a : option string) (of_str : string -> A)
    (attr : outcome A) : outcome A :=
  match a with
  | Some s => if String.eqb s "" then attr else Return (of_str s)
  | None => attr
  end.

(** [_get_sqlalchemy_column_metadata(engine, batch_data)];
    [sqlalchemy_TextClause] is the truth value of the optional import. *)
Definition _get_sqlalchemy_column_metadata (sqlalchemy_TextClause : bool)
    (engine : Engine) (batch_data : SqlAlchemyBatchData)
  : outcome Metadata :=
  match sqlalchemy_TextClause, batch_selectable batch_data with
  | true, TextClause text =>
      get_sqlalchemy_column_metadata engine (Query text) None
  | _, selectable =>
      match or_attr (source_table_name batch_data) (fun s => s)
              (selectable_name selectable) with
      | Throw e => Throw e
      | Return table_name =>
          match or_attr (source_schema_name batch_data) Some
                  (selectable_schema selectable) with
          | Throw e => Throw e
          | Return schema_name =>
              get_sqlalchemy_column_metadata engine (Named table_name)
                schema_name
          end
      end
  end.

(** [ColumnTypes._sqlalchemy] *)
Definition _sqlalchemy (sqlalchemy_TextClause : bool) (engine : Engine)
    (manager : batch_manager) (metric_domain_kwargs : gmap string value)
  : outcome Metadata :=
  let batch_id :=
    match metric_domain_kwargs !! "batch_id" with
    | Some v => v
    | None => VNone
    end in
  let resolved :=
    match batch_id with
    | VNone =>
        match active_batch_data_id manager with
        | Some active => Return (VStr active)
        | None =>
            Throw (GreatExpectationsError
                     "batch_id could not be determined from domain kwargs and no active_batch_data is loaded into the execution engine")
        end
    | _ => Return batch_id
    end in
  match resolved with
  | Throw e => Throw e
  | Return batch_id =>
      match cache_get (batch_data_cache manager) batch_id with
      | None =>
          Throw (GreatExpectationsError
                   "the requested batch is not available; please load the batch into the execution engine.")
      | Some batch_data =>
          _get_sqlalchemy_column_metadata sqlalchemy_TextClause engine
            batch_data
      end
  end.

End SqlAlchemy.

End ColumnTypesMetric.

(** ** [ExpectColumnValuesToBeStringIntegersIncreasing._validate_success_key] *)

Module SuccessKey.

Import GE.

(** [for rule, error_message in validation_rules.items()]: the rules in
    the order of the dictionary, each with its message. *)
Fixpoint check_rules (validation_rules : list ((value -> bool) * string))
    (param_value : value) : outcome unit :=
  match validation_rules with
  | [] => Return tt
  | (rule, error_message) :: rest =>
      if rule param_value then check_rules rest param_value
      else Throw (InvalidExpectationKwargsError error_message)
  end.

Definition _validate_success_key (param : string) (required : bool)
    (configuration_kwargs : gmap string value)
    (validation_rules : list ((value -> bool) * string)) : outcome unit :=
  match configuration_kwargs !! param with
  | None =>
      if required then
        Throw (InvalidExpectationKwargsError
                 ("Parameter " +:+ param +:+
                  " is required but was not found in configuration."))
      else Return tt
  | Some param_value => check_rules validation_rules param_value
  end.

End SuccessKey.

(** * Properties *)

(** ** Schema flattening *)

Section Flattening.

(** Induction on [obj] that reaches the fields of a struct, also through
    the data type of a field. *)
Lemma obj_nested_ind (P : obj -> Prop) :
  (forall t, P (Atomic t)) ->
  (forall e b, P e -> P (ArrayType e b)) ->
  (forall k v b, P k -> P v -> P (MapType k v b)) ->
  (forall fields, Forall P fields -> P (StructType fields)) ->
  (forall name dt b, P dt -> Forall P (fields_of dt) ->
                     P (StructField name dt b)) ->
  (forall v, P (NotSpark v)) ->
  forall o, P o.
Proof.
  intros Hat Har Hmap Hst Hfd Hno.
  fix IH 1. intros [t | e b | k v b | fields | name dt b | v].
  - apply Hat.
  - apply Har, IH.
  - apply Hmap; apply IH.
  - apply Hst. induction fields as [| f fs IHfs]; constructor.
    + apply IH.
    + exact IHfs.
  - apply Hfd; [apply IH |].
    destruct dt as [| | | fields | |]; try constructor.
    induction fields as [| f fs IHfs]; constructor.
    + apply IH.
    + exact IHfs.
  - apply Hno.
Qed.

Lemma append_assoc (a b c : string) : (a +:+ b) +:+ c = a +:+ b +:+ c.
Proof.
  induction a as [| ch a IHa]; [reflexivity |].
  change (String ch ((a +:+ b) +:+ c) = String ch (a +:+ b +:+ c)).
  now rewrite IHa.
Qed.

Lemma append_eq_empty (a b : string) : a +:+ b = "" -> a = "".
Proof. destruct a; simpl; [reflexivity | discriminate]. Qed.

(** Joining a path that ends in [x]. *)
Lemma concat_snoc (ps : list string) (x : string) :
  String.concat "." (ps ++ [x]) =
  match ps with
  | [] => x
  | _ :: _ => String.concat "." ps +:+ "." +:+ x
  end.
Proof.
  induction ps as [| p ps IHps]; [reflexivity |].
  destruct ps as [| q ps]; [reflexivity |].
  change (String.concat "." ((p :: q :: ps) ++ [x]))
    with (p +:+ "." +:+ String.concat "." ((q :: ps) ++ [x])).
  rewrite IHps.
  change (String.concat "." (p :: q :: ps))
    with (p +:+ "." +:+ String.concat "." (q :: ps)).
  now rewrite !append_assoc.
Qed.

(** A path of non-empty names joins to the empty string only when it is
    the empty path. *)
Lemma concat_named_empty (ps : list string) :
  named ps -> String.concat "." ps = "" -> ps = [].
Proof.
  intros Hn Heq. destruct ps as [| p ps]; [reflexivity | exfalso].
  inversion Hn as [| ? ? Hp _]; subst. apply Hp.
  destruct ps as [| q ps]; [exact Heq |].
  change (p +:+ "." +:+ String.concat "." (q :: ps) = "") in Heq.
  now apply append_eq_empty in Heq.
Qed.

(** The prefix the function builds from the joined path is the path
    itself, in front of whatever follows. *)
Lemma dot_suffix_path (ps : list string) (x : string) :
  named ps ->
  dot_suffix (String.concat "." ps) +:+ x = String.concat "." (ps ++ [x]).
Proof.
  intros Hn. rewrite concat_snoc. unfold dot_suffix.
  destruct (String.eqb_spec (String.concat "." ps) "") as [He | Hne].
  - rewrite (concat_named_empty ps Hn He). reflexivity.
  - destruct ps as [| p ps]; [now elim Hne |]. now rewrite append_assoc.
Qed.

Lemma field_entry_name_quoted (prefix name : string) :
  field_entry_name prefix name = prefix +:+ quoted name.
Proof. unfold field_entry_name, quoted. now destruct (Py.contains _ name). Qed.

(** The accumulation loop, when every call returns. *)
Lemma extend_with_Ok {A B} (f : A -> result (list B)) (g : A -> list B)
    (children : list A) (cols : list B) :
  Forall (fun c => f c = Ok (g c)) children ->
  extend_with f children cols = Ok (cols ++ flat_map g children).
Proof.
  intros Hall. revert cols.
  induction Hall as [| c cs Hc Hcs IH]; intros cols; simpl.
  - now rewrite app_nil_r.
  - rewrite Hc. simpl. rewrite IH. now rewrite <- app_assoc.
Qed.

(** The loop raises as soon as one call does. *)
Lemma extend_with_raises {A B} (f : A -> result (list B))
    (children : list A) (cols : list B) (c : A) :
  In c children -> raises (f c) -> raises (extend_with f children cols).
Proof.
  intros Hin [e He]. revert cols.
  induction children as [| c' cs IH]; intros cols; [contradiction |].
  simpl. destruct Hin as [-> | Hin].
  - rewrite He. now exists e.
  - destruct (f c') as [more | e']; simpl; [apply IH, Hin | now exists e'].
Qed.

(** The two branches of the function, as equations. *)
Lemma metadata_StructType (st : bool) (fields : list obj) (p : string)
    (incl : bool) :
  _get_spark_column_metadata st (StructType fields) p incl =
  if st then
    extend_with
      (fun child => _get_spark_column_metadata st child (dot_suffix p) true)
      fields []
  else unrecognized.
Proof. reflexivity. Qed.

Lemma metadata_StructField (st : bool) (name : string) (dt : obj) (b : bool)
    (p : string) (incl : bool) :
  _get_spark_column_metadata st (StructField name dt b) p incl =
  if st then
    let cols := [mk_metadata (field_entry_name (dot_suffix p) name) dt] in
    if incl && st && is_StructType dt then
      extend_with
        (fun child =>
           _get_spark_column_metadata st child (dot_suffix p +:+ name) incl)
        (fields_of dt) cols
    else Ok cols
  else unrecognized.
Proof.
  destruct st; [| reflexivity].
  destruct dt; try (cbn; rewrite andb_false_r; reflexivity).
  cbn. rewrite !andb_true_r. now destruct incl.
Qed.

Lemma metadata_unrecognized (st : bool) (o : obj) (p : string) (incl : bool) :
  is_StructType o = false -> is_StructField o = false ->
  _get_spark_column_metadata st o p incl = unrecognized.
Proof. destruct o; intros Hs Hf; try discriminate; reflexivity. Qed.

(** What a field contributes under a path of parents: the function,
    called with the joined path, returns the path-indexed entries. *)
Lemma field_entries (field : obj) :
  forall parents,
    schema_field field = true -> named parents ->
    _get_spark_column_metadata true field (String.concat "." parents) true
    = Ok (entries parents field).
Proof.
  induction field as [t | e b _ | k v b _ _ | fields _
                     | name dt b _ IHfields | v] using obj_nested_ind;
    intros parents Hwf Hn; try discriminate Hwf.
  cbn [schema_field] in Hwf. apply andb_prop in Hwf as [Hname Hsub].
  apply negb_true_iff, String.eqb_neq in Hname.
  rewrite metadata_StructField. cbn [andb entries].
  rewrite field_entry_name_quoted.
  rewrite (dot_suffix_path parents (quoted name) Hn).
  rewrite (dot_suffix_path parents name Hn).
  fold (nested_name parents name).
  destruct dt as [t | e eb | k v vb | fields | n' dt' b' | v];
    try reflexivity.
  cbn [is_StructType fields_of] in *.
  rewrite (extend_with_Ok _ (entries (parents ++ [name]))); [reflexivity |].
  assert (Hnamed : named (parents ++ [name])).
  { apply Forall_app; split; [exact Hn | now repeat constructor]. }
  rewrite forallb_forall in Hsub. rewrite Forall_forall in IHfields |- *.
  intros child Hin. apply list_elem_of_In in Hin.
  apply IHfields; [now apply list_elem_of_In | now apply Hsub | exact Hnamed].
Qed.

(** Flattening a whole schema with the default parent name. *)
Lemma schema_entries (fields : list obj) (incl : bool) :
  forallb schema_field fields = true ->
  _get_spark_column_metadata true (StructType fields) "" incl
  = Ok (flat_map (entries []) fields).
Proof.
  intros Hwf. rewrite metadata_StructType.
  rewrite (extend_with_Ok _ (entries [])); [reflexivity |].
  rewrite forallb_forall in Hwf. rewrite Forall_forall.
  intros child Hin. apply list_elem_of_In in Hin.
  apply (field_entries child []); [now apply Hwf | constructor].
Qed.

(** When the accumulation loop returns, every call returned and its
    entries are in the result. *)
Lemma extend_with_Ok_inv {A B} (f : A -> result (list B))
    (children : list A) (cols out : list B) :
  extend_with f children cols = Ok out ->
  (forall x, In x cols -> In x out) /\
  (forall c, In c children ->
     exists more, f c = Ok more /\ forall x, In x more -> In x out).
Proof.
  revert cols. induction children as [| c cs IH]; intros cols Hrun.
  - injection Hrun as <-. split; [tauto | contradiction].
  - simpl in Hrun. destruct (f c) as [more | e] eqn:Hc; [| discriminate].
    simpl in Hrun. destruct (IH _ Hrun) as [Hcols Hcs]. split.
    + intros x Hx. apply Hcols, in_or_app. now left.
    + intros c' [<- | Hin].
      * exists more. split; [exact Hc |].
        intros x Hx. apply Hcols, in_or_app. now right.
      * now apply Hcs.
Qed.

(** A field call that returns has put the field's own entry first. *)
Lemma field_own_entry (name : string) (dt : obj) (b : bool) (p : string)
    (incl : bool) (cols : list column_metadata) :
  _get_spark_column_metadata true (StructField name dt b) p incl = Ok cols ->
  In (mk_metadata (field_entry_name (dot_suffix p) name) dt) cols.
Proof.
  rewrite metadata_StructField. cbn zeta.
  destruct (incl && true && is_StructType dt).
  - intros Hrun. apply extend_with_Ok_inv in Hrun as [Hcols _].
    apply Hcols. now left.
  - intros [= <-]. now left.
Qed.

(** The accumulation loop returns when every call does. *)
Lemma extend_with_total {A B} (f : A -> result (list B)) (children : list A)
    (cols : list B) :
  Forall (fun c => exists more, f c = Ok more) children ->
  exists out, extend_with f children cols = Ok out.
Proof.
  intros Hall. revert cols.
  induction Hall as [| c cs [more Hc] Hcs IH]; intros cols; cbn [extend_with].
  - now exists cols.
  - rewrite Hc. cbn [Py.bind]. apply IH.
Qed.

Lemma is_DataType_StructType (fields : list obj) :
  is_DataType (StructType fields) = forallb is_field fields.
Proof. reflexivity. Qed.

(** On a field of a schema that pyspark accepts the function returns. *)
Lemma field_returns (field : obj) :
  is_field field = true ->
  forall p incl, exists cols,
    _get_spark_column_metadata true field p incl = Ok cols.
Proof.
  induction field as [t | e b _ | k v b _ _ | fields _
                     | name dt b _ IHfields | v] using obj_nested_ind;
    intros Hfield p incl; try discriminate Hfield.
  rewrite metadata_StructField. cbn zeta.
  destruct (incl && true && is_StructType dt) eqn:Hnested; [| now eexists].
  apply andb_prop in Hnested as [_ Hstruct].
  destruct dt as [| | | fields | |]; try discriminate Hstruct.
  cbn [fields_of] in *. cbn [is_field] in Hfield.
  rewrite is_DataType_StructType, forallb_forall in Hfield.
  apply extend_with_total. rewrite Forall_forall in IHfields |- *.
  intros child Hin. apply IHfields; [exact Hin |].
  apply Hfield. now apply list_elem_of_In.
Qed.

Lemma schema_returns (fields : list obj) (p : string) (incl : bool) :
  is_DataType (StructType fields) = true ->
  exists cols,
    _get_spark_column_metadata true (StructType fields) p incl = Ok cols.
Proof.
  rewrite is_DataType_StructType, forallb_forall. intros Hfields.
  rewrite metadata_StructType. apply extend_with_total, Forall_forall.
  intros child Hin. apply field_returns, Hfields.
  now apply list_elem_of_In.
Qed.

Lemma named_outer (ps : list string) : named ps -> outer_named ps.
Proof. intros Hn. destruct ps; [exact I | now inversion Hn]. Qed.

Lemma outer_named_app_l (ps qs : list string) :
  outer_named (ps ++ qs) -> outer_named ps.
Proof. destruct ps; [constructor | exact (fun H => H)]. Qed.

(** A path whose outermost name is not empty joins to the empty string
    only when it is the empty path. *)
Lemma concat_outer_named_empty (ps : list string) :
  outer_named ps -> String.concat "." ps = "" -> ps = [].
Proof.
  intros Hn Heq. destruct ps as [| p ps]; [reflexivity | exfalso].
  apply Hn. destruct ps as [| q ps]; [exact Heq |].
  change (p +:+ "." +:+ String.concat "." (q :: ps) = "") in Heq.
  now apply append_eq_empty in Heq.
Qed.

Lemma dot_suffix_outer_path (ps : list string) (x : string) :
  outer_named ps ->
  dot_suffix (String.concat "." ps) +:+ x = String.concat "." (ps ++ [x]).
Proof.
  intros Hn. rewrite concat_snoc. unfold dot_suffix.
  destruct (String.eqb_spec (String.concat "." ps) "") as [He | Hne].
  - rewrite (concat_outer_named_empty ps Hn He). reflexivity.
  - destruct ps as [| p ps]; [now elim Hne |]. now rewrite append_assoc.
Qed.

(** A returning loop over the fields of a struct holds, for every field
    under every path of struct fields whose outermost name is not empty,
    the entry named by that path.  [pre] is the path of the struct
    itself. *)
Lemma loop_holds_path_entries (ps : list string) (f : obj) (fields : list obj) :
  field_under ps f fields ->
  forall pre own dt b cols out,
    f = StructField own dt b ->
    outer_named (pre ++ ps) ->
    extend_with
      (fun child =>
         _get_spark_column_metadata true child (String.concat "." pre) true)
      fields cols = Ok out ->
    In (mk_metadata (nested_name (pre ++ ps) own) dt) out.
Proof.
  induction 1 as [f fields Hin | p sub nb ps f fields Hin _ IH];
    intros pre own dt b cols out -> Hnamed Hrun;
    apply extend_with_Ok_inv in Hrun as [_ Hall];
    destruct (Hall _ Hin) as (more & Hcall & Hmore); apply Hmore.
  - rewrite app_nil_r in *. apply field_own_entry in Hcall.
    rewrite field_entry_name_quoted, (dot_suffix_outer_path _ _ Hnamed)
      in Hcall.
    exact Hcall.
  - assert (Hpre : outer_named pre) by exact (outer_named_app_l _ _ Hnamed).
    rewrite metadata_StructField in Hcall.
    cbn [andb is_StructType fields_of] in Hcall. cbn zeta in Hcall.
    rewrite (dot_suffix_outer_path pre p Hpre) in Hcall.
    replace (pre ++ p :: ps) with ((pre ++ [p]) ++ ps) in *
      by now rewrite <- app_assoc.
    exact (IH (pre ++ [p]) own dt b _ more eq_refl Hnamed Hcall).
Qed.

(** A returning loop over the fields of a struct holds an entry for every
    field under every path of struct fields, and the loop raises when an
    object of an unrecognized shape sits under such a path. *)
Lemma loop_holds_nested_fields (ps : list string) (f : obj) (fields : list obj) :
  field_under ps f fields ->
  forall q own dt b cols out,
    f = StructField own dt b ->
    extend_with
      (fun child => _get_spark_column_metadata true child q true)
      fields cols = Ok out ->
    exists name, In (mk_metadata name dt) out.
Proof.
  induction 1 as [f fields Hin | p sub nb ps f fields Hin _ IH];
    intros q own dt b cols out -> Hrun;
    apply extend_with_Ok_inv in Hrun as [_ Hall];
    destruct (Hall _ Hin) as (more & Hcall & Hmore).
  - apply field_own_entry in Hcall. eexists. apply Hmore, Hcall.
  - rewrite metadata_StructField in Hcall.
    cbn [andb is_StructType fields_of] in Hcall. cbn zeta in Hcall.
    destruct (IH _ own dt b _ more eq_refl Hcall) as [name Hname].
    exists name. now apply Hmore.
Qed.

Lemma loop_raises_on_nested_unrecognized (ps : list string) (o : obj)
    (fields : list obj) :
  field_under ps o fields ->
  is_StructType o = false -> is_StructField o = false ->
  forall q cols,
    raises (extend_with
              (fun child => _get_spark_column_metadata true child q true)
              fields cols).
Proof.
  induction 1 as [f fields Hin | p sub nb ps f fields Hin _ IH];
    intros Hs Hf q cols; apply (extend_with_raises _ fields cols _ Hin).
  - rewrite metadata_unrecognized by assumption. now eexists.
  - rewrite metadata_StructField. cbn [andb is_StructType fields_of].
    cbn zeta. now apply IH.
Qed.

(** The accumulation loop only ever adds to what it was given, and what it
    adds does not depend on it. *)
Lemma extend_with_shift {A B} (f : A -> result (list B))
    (children : list A) (cols : list B) :
  extend_with f children cols =
  (more <- extend_with f children [] ;; Ok (cols ++ more)).
Proof.
  revert cols. induction children as [| c cs IH]; intros cols;
    cbn [extend_with Py.bind].
  - now rewrite app_nil_r.
  - destruct (f c) as [more | e]; cbn [Py.bind app]; [| reflexivity].
    rewrite (IH (cols ++ more)), (IH more).
    destruct (extend_with f cs []) as [rest | e]; cbn [Py.bind];
      [| reflexivity].
    now rewrite app_assoc.
Qed.

End Flattening.

(** C6 (as stated) fails on a struct field whose name is the empty string:
    its child gets no prefix, where the parents' names joined with dots
    and the child's name give ".inner". *)
Lemma C6_counterexample :
  _get_spark_column_metadata true
    (StructType
       [StructField ""
          (StructType [StructField "inner" (Atomic LongType) true]) true])
    "" true
  = Ok [mk_metadata ""
          (StructType [StructField "inner" (Atomic LongType) true]);
        mk_metadata "inner" (Atomic LongType)] /\
  String.concat "." ([""] ++ ["inner"]) = ".inner" /\
  "inner" <> ".inner".
Proof. repeat split. discriminate. Qed.

(** C6 (amended).  Flattening a schema with [include_nested = true]
    returns, for a struct field "outer" of the schema with a child
    "inner", an entry "outer" of the struct type and an entry
    "outer.inner" of the child's type.  A nested field whose outermost
    parent has a non-empty name is named by the names of its parents
    joined with dots, followed by its own name, which stands between
    backticks when it holds a dot. *)
Theorem C6_nested_entries_named_by_dotted_path (fields : list obj) :
  is_DataType (StructType fields) = true ->
  exists cols,
    _get_spark_column_metadata true (StructType fields) "" true = Ok cols /\
    (forall children leaf b1 b2,
        In (StructField "outer" (StructType children) b1) fields ->
        In (StructField "inner" leaf b2) children ->
        In (mk_metadata "outer" (StructType children)) cols /\
        In (mk_metadata "outer.inner" leaf) cols) /\
    (forall parents own dt b,
        field_under parents (StructField own dt b) fields ->
        outer_named parents ->
        In (mk_metadata
              (String.concat "."
                 (parents ++ [if Py.contains "."%char own
                              then "`" +:+ own +:+ "`" else own]))
              dt) cols).
Proof.
  intros Hvalid.
  destruct (schema_returns fields "" true Hvalid) as [cols Hrun].
  exists cols. split; [exact Hrun |].
  assert (Hpath : forall parents own dt b,
             field_under parents (StructField own dt b) fields ->
             outer_named parents ->
             In (mk_metadata (nested_name parents own) dt) cols).
  { intros parents own dt b Hunder Hnamed.
    rewrite metadata_StructType in Hrun.
    exact (loop_holds_path_entries parents _ fields Hunder
             [] own dt b [] cols eq_refl Hnamed Hrun). }
  split; [| exact Hpath].
  intros children leaf b1 b2 Houter Hinner. split.
  - apply (Hpath [] "outer" (StructType children) b1);
      now constructor.
  - apply (Hpath ["outer"] "inner" leaf b2).
    + apply (under_struct "outer" children b1 [] _ fields Houter).
      now constructor.
    + discriminate.
Qed.

Lemma C6_witness :
  exists cols,
    _get_spark_column_metadata true
      (StructType
         [StructField "outer"
            (StructType [StructField "inner" (Atomic LongType) true;
                         StructField "a.b" (Atomic StringType) true]) true;
          StructField "id" (Atomic StringType) false]) "" true = Ok cols /\
    In (mk_metadata "outer.inner" (Atomic LongType)) cols /\
    In (mk_metadata "outer.`a.b`" (Atomic StringType)) cols.
Proof.
  destruct (C6_nested_entries_named_by_dotted_path
              [StructField "outer"
                 (StructType [StructField "inner" (Atomic LongType) true;
                              StructField "a.b" (Atomic StringType) true]) true;
               StructField "id" (Atomic StringType) false] eq_refl)
    as (cols & Hrun & Houter & Hpath).
  exists cols. split; [exact Hrun | split].
  - apply (Houter [StructField "inner" (Atomic LongType) true;
                   StructField "a.b" (Atomic StringType) true]
                  (Atomic LongType) true true); simpl; eauto.
  - apply (Hpath ["outer"] "a.b" (Atomic StringType) true).
    + eapply under_struct; [simpl; eauto |]. constructor. simpl. eauto.
    + discriminate.
Defined.

(** C7.  With [include_nested = false] the flattening of a schema should
    return one entry per top-level field.  The loop over the fields of the
    schema calls the function without [include_nested], so every field is
    flattened with the default [True]: the flag of the caller is ignored
    and the nested field is reported all the same, while the same field
    handed over on its own obeys the flag. *)
Theorem C7_schema_loop_ignores_include_nested :
  let inner := StructField "inner" (Atomic LongType) true in
  let outer := StructField "outer" (StructType [inner]) true in
  _get_spark_column_metadata true (StructType [outer]) "" false
  = Ok [mk_metadata "outer" (StructType [inner]);
        mk_metadata "outer.inner" (Atomic LongType)] /\
  _get_spark_column_metadata true outer "" false
  = Ok [mk_metadata "outer" (StructType [inner])] /\
  (forall st fields p incl,
      _get_spark_column_metadata st (StructType fields) p incl
      = _get_spark_column_metadata st (StructType fields) p true).
Proof. repeat split. Qed.

Section FlatteningShape.

(** The accumulation loop adds the results of the calls, in order, behind
    what it was given. *)
Lemma extend_with_image {A B C} (f : A -> result (list B)) (ty : B -> C)
    (g : A -> list C) (children : list A) (cols : list B) :
  Forall (fun c => exists more, f c = Ok more /\ map ty more = g c) children ->
  exists out,
    extend_with f children cols = Ok out /\
    map ty out = map ty cols ++ flat_map g children.
Proof.
  intros Hall. revert cols.
  induction Hall as [| c cs (more & Hc & Hty) Hcs IH]; intros cols;
    cbn [extend_with flat_map].
  - exists cols. now rewrite app_nil_r.
  - rewrite Hc. cbn [Py.bind].
    destruct (IH (cols ++ more)) as (out & Hrun & Hout).
    exists out. split; [exact Hrun |].
    now rewrite Hout, map_app, Hty, <- app_assoc.
Qed.

Lemma extend_with_prefix {A B} (f : A -> result (list B)) (children : list A)
    (cols out : list B) :
  extend_with f children cols = Ok out -> exists rest, out = cols ++ rest.
Proof.
  revert cols. induction children as [| c cs IH]; intros cols Hrun.
  - injection Hrun as <-. exists []. now rewrite app_nil_r.
  - cbn [extend_with] in Hrun. destruct (f c) as [more | e]; [| discriminate].
    cbn [Py.bind] in Hrun. destruct (IH _ Hrun) as [rest ->].
    exists (more ++ rest). now rewrite app_assoc.
Qed.

(** With nesting included, a field of a schema contributes the data types
    of [ColumnTypesMetric.field_types], in that order. *)
Lemma field_types_flattened (field : obj) :
  is_field field = true ->
  forall p, exists cols,
    _get_spark_column_metadata true field p true = Ok cols /\
    map md_type cols = ColumnTypesMetric.field_types field.
Proof.
  induction field as [t | e b _ | k v b _ _ | fields _
                     | name dt b _ IHfields | v] using obj_nested_ind;
    intros Hfield p; try discriminate Hfield.
  rewrite metadata_StructField. cbn zeta. cbn [andb ColumnTypesMetric.field_types].
  destruct dt as [| | | fields | |];
    try (cbn [is_StructType]; eexists; split; reflexivity).
  cbn [is_StructType fields_of] in *. cbn [is_field] in Hfield.
  rewrite is_DataType_StructType, forallb_forall in Hfield.
  apply (extend_with_image _ md_type ColumnTypesMetric.field_types).
  rewrite Forall_forall in IHfields |- *.
  intros child Hin. apply IHfields; [exact Hin |].
  apply Hfield. now apply list_elem_of_In.
Qed.

(** On a schema pyspark accepts, a field under a path of struct fields
    whose outermost name is not empty has the entry named by the path,
    whatever [include_nested]. *)
Lemma schema_path_entry (fields : list obj) (incl : bool)
    (cols : list column_metadata) (parents : list string) (own : string)
    (dt : obj) (b : bool) :
  _get_spark_column_metadata true (StructType fields) "" incl = Ok cols ->
  field_under parents (StructField own dt b) fields ->
  outer_named parents ->
  In (mk_metadata (nested_name parents own) dt) cols.
Proof.
  intros Hrun Hunder Hnamed. rewrite metadata_StructType in Hrun.
  exact (loop_holds_path_entries parents _ fields Hunder
           [] own dt b [] cols eq_refl Hnamed Hrun).
Qed.

(** On a schema pyspark accepts the loop over the fields returns the
    entries of all fields, nested ones included. *)
Lemma schema_types_flattened (fields : list obj) (incl : bool) :
  is_DataType (StructType fields) = true ->
  exists cols,
    _get_spark_column_metadata true (StructType fields) "" incl = Ok cols /\
    map md_type cols = flat_map ColumnTypesMetric.field_types fields.
Proof.
  rewrite is_DataType_StructType, forallb_forall. intros Hfields.
  rewrite metadata_StructType.
  destruct (extend_with_image
              (fun child => _get_spark_column_metadata true child
                              (dot_suffix "") true)
              md_type ColumnTypesMetric.field_types fields [])
    as (cols & Hrun & Htypes).
  - apply Forall_forall. intros child Hin.
    apply field_types_flattened, Hfields. now apply list_elem_of_In.
  - cbn [map app] in Htypes. now exists cols.
Qed.

End FlatteningShape.

(** C9.  An object that is neither a struct container nor a struct field
    makes the flattening raise "unrecognized field type", on its own, as a
    member of a struct container, and anywhere below the struct fields of
    a schema: it is never left out silently.  On a schema the flattening
    returns, and every field of the schema, at every depth, has its entry
    in the result: the entries are the fields, each before the fields
    nested in it, none left out and none repeated. *)
Theorem C9_unrecognized_shape_raises (st : bool) (o : obj) (p : string)
    (incl : bool) :
  is_StructType o = false -> is_StructField o = false ->
  _get_spark_column_metadata st o p incl
  = Raise (ValueError "unrecognized field type") /\
  (forall fields, In o fields ->
     raises (_get_spark_column_metadata st (StructType fields) p incl)) /\
  (forall fields parents, field_under parents o fields ->
     raises (_get_spark_column_metadata true (StructType fields) p incl)) /\
  (forall fields,
     is_DataType (StructType fields) = true ->
     exists cols,
       _get_spark_column_metadata true (StructType fields) "" incl = Ok cols /\
       map md_type cols = flat_map ColumnTypesMetric.field_types fields /\
       (forall parents own dt b,
           field_under parents (StructField own dt b) fields ->
           exists name, In (mk_metadata name dt) cols) /\
       (forall name dt b, In (StructField name dt b) fields ->
          In (mk_metadata (quoted name) dt) cols)).
Proof.
  intros Hs Hf. split; [now apply metadata_unrecognized |]. split; [| split].
  - intros fields Hin. rewrite metadata_StructType.
    destruct st; [| now eexists].
    apply (extend_with_raises _ fields [] o Hin).
    rewrite metadata_unrecognized by assumption. now eexists.
  - intros fields parents Hunder. rewrite metadata_StructType.
    now apply (loop_raises_on_nested_unrecognized parents o fields).
  - intros fields Hvalid.
    destruct (schema_types_flattened fields incl Hvalid)
      as (cols & Hrun & Htypes).
    exists cols. split; [exact Hrun |]. split; [exact Htypes |].
    rewrite metadata_StructType in Hrun. split.
    + intros parents own dt b Hunder.
      exact (loop_holds_nested_fields parents _ fields Hunder
               _ own dt b [] cols eq_refl Hrun).
    + intros name dt b Hin.
      apply extend_with_Ok_inv in Hrun as [_ Hall].
      destruct (Hall _ Hin) as (more & Hfield & Hmore).
      apply Hmore. apply field_own_entry in Hfield.
      now rewrite field_entry_name_quoted in Hfield.
Qed.

Lemma C9_witness :
  _get_spark_column_metadata true (Atomic StringType) "" true
  = Raise (ValueError "unrecognized field type") /\
  raises (_get_spark_column_metadata true
            (StructType [StructField "id" (Atomic LongType) true;
                         Atomic StringType]) "" true).
Proof.
  destruct (C9_unrecognized_shape_raises true (Atomic StringType) "" true
              eq_refl eq_refl) as (Hown & Hmember & _).
  split; [exact Hown |]. apply Hmember. simpl. eauto.
Defined.

(** ** The "increasing" metric *)

Section IncreasingFacts.

Variable ucd : N -> numeric_type.

Lemma digit_value_nth (n : N) :
  (n <= 9)%N -> digit_value (nth_digit n) = Z.of_N n.
Proof.
  intros Hn.
  assert (Hcases : n = 0%N \/ n = 1%N \/ n = 2%N \/ n = 3%N \/ n = 4%N \/
                   n = 5%N \/ n = 6%N \/ n = 7%N \/ n = 8%N \/ n = 9%N) by lia.
  repeat (destruct Hcases as [-> | Hcases]; [reflexivity |]).
  now subst n.
Qed.

Lemma digit_value_nonneg (d : decimal_digit) : 0 <= digit_value d.
Proof. destruct d; cbn; lia. Qed.

Lemma decimal_value_nonneg (c : N) : 0 <= decimal_value ucd c.
Proof.
  unfold decimal_value. destruct (numeric_type_of ucd c); try lia.
  apply digit_value_nonneg.
Qed.

Lemma int_from_nonneg (s : str) :
  forall acc, 0 <= acc -> 0 <= int_from ucd acc s.
Proof.
  induction s as [| c s IH]; intros acc Hacc; [exact Hacc |].
  cbn [int_from]. apply IH. pose proof (decimal_value_nonneg c). lia.
Qed.

Lemma int_nonneg (s : str) : 0 <= int ucd s.
Proof. unfold int. apply int_from_nonneg. lia. Qed.

(** A decimal digit is a digit: what [isdecimal] accepts, [isdigit]
    accepts. *)
Lemma is_decimal_is_digit (c : N) :
  is_decimal ucd c = true -> is_digit ucd c = true.
Proof.
  unfold is_decimal, is_digit. now destruct (numeric_type_of ucd c).
Qed.

Lemma str_isdecimal_isdigit (s : str) :
  str_isdecimal ucd s = true -> str_isdigit ucd s = true.
Proof.
  destruct s as [| c s]; [discriminate |].
  unfold str_isdecimal, str_isdigit. rewrite !forallb_forall.
  intros Hall x Hx. apply is_decimal_is_digit, Hall, Hx.
Qed.

Lemma digits_upto_spec (bound : Z) (s : str) :
  digits_upto ucd bound s = true ->
  str_isdecimal ucd s = true /\ 0 <= int ucd s <= bound.
Proof.
  unfold digits_upto. intros [Hd Hb]%andb_prop.
  split; [exact Hd |]. split; [apply int_nonneg | lia].
Qed.

Lemma forallb_digits_upto (bound : Z) (column : list str) :
  forallb (digits_upto ucd bound) column = true ->
  forallb (str_isdigit ucd) column = true /\
  forallb (str_isdecimal ucd) column = true /\
  Forall (fun n => 0 <= n <= bound) (map (int ucd) column).
Proof.
  induction column as [| s column IH]; intros Hall; [now repeat split |].
  cbn [forallb] in Hall. apply andb_prop in Hall as [Hs Hrest].
  destruct (digits_upto_spec _ _ Hs) as [Hd Hr], (IH Hrest) as (Hds & Hcs & Hrs).
  cbn [forallb]. rewrite Hd, Hds, Hcs, (str_isdecimal_isdigit _ Hd).
  repeat split. now constructor.
Qed.

(** Within 64 bits, [astype(int)] reads every string of decimal digits. *)
Lemma astype_int_Ok (column : list str) :
  forallb (str_isdecimal ucd) column = true ->
  Forall (fun n => n <= INT64_MAX) (map (int ucd) column) ->
  astype_int ucd column = Ok (map (int ucd) column).
Proof.
  induction column as [| s column IH]; intros Hdec Hall; [reflexivity |].
  cbn [forallb] in Hdec. apply andb_prop in Hdec as [Hs Hdec].
  inversion Hall as [| ? ? Hn Hrest]; subst. cbn [astype_int]. rewrite Hs.
  destruct (Z.leb_spec (int ucd s) INT64_MAX) as [_ | Hgt]; [| lia].
  now rewrite (IH Hdec Hrest).
Qed.

(** [astype(int)] reads no column that holds a string [int] cannot
    read. *)
Lemma astype_int_raises (column : list str) (s : str) :
  In s column -> str_isdecimal ucd s = false ->
  raises (astype_int ucd column).
Proof.
  induction column as [| s0 column IH]; intros Hin Hs; [contradiction |].
  cbn [astype_int].
  destruct (str_isdecimal ucd s0) eqn:Hs0; [| now eexists].
  destruct (int ucd s0 <=? INT64_MAX); [| now eexists].
  destruct Hin as [-> | Hin]; [congruence |].
  destruct (IH Hin Hs) as [e He]. rewrite He. now exists e.
Qed.

(** The error [astype(int)] raises is never the type error of the digit
    check. *)
Lemma astype_int_error (column : list str) (e : exn) :
  astype_int ucd column = Raise e ->
  e <> TypeError "Column must be a string-type capable of being cast to int.".
Proof.
  induction column as [| s0 column IH]; intros He; [discriminate |].
  cbn [astype_int] in He.
  destruct (str_isdecimal ucd s0); [| intros ->; discriminate].
  destruct (int ucd s0 <=? INT64_MAX); [| intros ->; discriminate].
  destruct (astype_int ucd column) as [tl | e0]; [discriminate |].
  cbn [Py.bind] in He. injection He as ->. now apply IH.
Qed.

(** No wrap-around happens on differences that fit. *)
Lemma wrap_small (bits z : Z) :
  0 < bits -> - 2 ^ (bits - 1) <= z < 2 ^ (bits - 1) -> wrap bits z = z.
Proof.
  intros Hbits Hz. unfold wrap.
  assert (Hpow : 2 ^ bits = 2 * 2 ^ (bits - 1)).
  { rewrite <- Z.pow_succ_r by lia. f_equal. lia. }
  rewrite Z.mod_small by lia. lia.
Qed.

(** [np.diff] advances one pair at a time. *)
Lemma np_diff_step (x y : Z) (a : list Z) :
  np_diff (x :: y :: a) = wrap 64 (y - x) :: np_diff (y :: a).
Proof. reflexivity. Qed.

Lemma np_diff_length (a : list Z) :
  length (np_diff a) = (length a - 1)%nat.
Proof.
  destruct a as [| x a]; [reflexivity |]. revert x.
  induction a as [| y a IH]; intros x; [reflexivity |].
  rewrite np_diff_step. cbn [length]. rewrite (IH y). cbn [length]. lia.
Qed.

Lemma np_diff_lookup (a : list Z) :
  forall (i : nat) (x y : Z),
    a !! i = Some x -> a !! S i = Some y ->
    np_diff a !! i = Some (wrap 64 (y - x)).
Proof.
  destruct a as [| x0 a]; [discriminate |]. revert x0.
  induction a as [| y0 a IH]; intros x0 i x y Hx Hy.
  - destruct i; discriminate.
  - rewrite np_diff_step. destruct i as [| i].
    + now injection Hx as <-; injection Hy as <-.
    + exact (IH y0 i x y Hx Hy).
Qed.

End IncreasingFacts.

(** C3.  A column that holds a string which is not made of digits only
    ([str.isdigit] is false of it: the empty string, a string with a
    letter, a sign, a blank or a point) makes the array-vectorized variant
    raise the type error; no mask is returned, whatever the other values
    are. *)
Theorem C3_non_digit_string_raises (ucd : N -> numeric_type)
    (column : list str) (kwargs : gmap string value) (s : str) :
  In s column -> str_isdigit ucd s = false ->
  _pandas ucd column kwargs
  = Raise (TypeError "Column must be a string-type capable of being cast to int.")
  /\ forall mask, _pandas ucd column kwargs <> Ok mask.
Proof.
  intros Hin Hs.
  assert (Hall : forallb (str_isdigit ucd) column = false).
  { apply not_true_is_false. intros Hall.
    rewrite forallb_forall in Hall. specialize (Hall s Hin). congruence. }
  unfold _pandas. rewrite Hall. split; [reflexivity | discriminate].
Qed.

Lemma C3_witness :
  _pandas ucd_excerpt (map text ["0"; "1"; "2x"; "3"]) {["strictly" := VBool false]}
  = Raise (TypeError "Column must be a string-type capable of being cast to int.")
  /\ forall mask,
      _pandas ucd_excerpt (map text ["0"; "1"; "2x"; "3"])
        {["strictly" := VBool false]} <> Ok mask.
Proof.
  apply (C3_non_digit_string_raises ucd_excerpt
           (map text ["0"; "1"; "2x"; "3"])
           {["strictly" := VBool false]} (text "2x")).
  - simpl. tauto.
  - reflexivity.
Defined.

(** C5.  The table.column_types dependency the metric declares carries the
    domain kwargs of the metric without the "column" key, every other key
    with its value, and the value kwargs {"include_nested": True}. *)
Theorem C5_column_types_dependency_domain
    (super_get_evaluation_dependencies :
       MetricConfiguration -> gmap string MetricConfiguration)
    (metric : MetricConfiguration) :
  exists dependency,
    _get_evaluation_dependencies super_get_evaluation_dependencies metric
      !! "table.column_types" = Some dependency /\
    metric_name dependency = "table.column_types" /\
    metric_domain_kwargs dependency
    = delete "column" (metric_domain_kwargs metric) /\
    metric_domain_kwargs dependency !! "column" = None /\
    (forall k, k <> "column" ->
       metric_domain_kwargs dependency !! k = metric_domain_kwargs metric !! k) /\
    metric_value_kwargs dependency = {["include_nested" := VBool true]}.
Proof.
  unfold _get_evaluation_dependencies. eexists. split.
  - apply lookup_insert_eq.
  - cbn [metric_name metric_domain_kwargs metric_value_kwargs].
    assert (Hfilter : filter (fun kv : string * value => kv.1 <> "column")
                        (metric_domain_kwargs metric)
                      = delete "column" (metric_domain_kwargs metric)).
    { apply map_eq. intros k.
      destruct (decide (k = "column")) as [-> | Hk].
      - rewrite lookup_delete_eq. apply map_lookup_filter_None. right.
        intros x _ Hne. now apply Hne.
      - rewrite lookup_delete_ne by congruence.
        destruct (metric_domain_kwargs metric !! k) as [x |] eqn:Hx.
        + apply map_lookup_filter_Some. now split.
        + apply map_lookup_filter_None. now left. }
    rewrite Hfilter. repeat split.
    + apply lookup_delete_eq.
    + intros k Hk. apply lookup_delete_ne. congruence.
Qed.

Section PandasMask.

Variable ucd : N -> numeric_type.

(** Differences of values between 0 and the largest 64-bit integer never
    wrap. *)
Lemma np_diff_exact (a : list Z) :
  Forall (fun n => 0 <= n <= INT64_MAX) a ->
  forall (i : nat) (x y : Z),
    a !! i = Some x -> a !! S i = Some y -> np_diff a !! i = Some (y - x).
Proof.
  intros Hall i x y Hx Hy. rewrite (np_diff_lookup a i x y Hx Hy).
  rewrite Forall_forall in Hall.
  assert (Hrx := Hall x (proj2 (list_elem_of_lookup a x) (ex_intro _ i Hx))).
  assert (Hry := Hall y (proj2 (list_elem_of_lookup a y) (ex_intro _ (S i) Hy))).
  f_equal. apply wrap_small; [lia |].
  unfold INT64_MAX in *. change (64 - 1) with 63. lia.
Qed.

(** The mask of [_pandas] on a column that [astype(int)] can read. *)
Lemma pandas_mask (column : list str) (kwargs : gmap string value) :
  forallb (digits_upto ucd INT64_MAX) column = true ->
  _pandas ucd column kwargs
  = Ok (map (fun d => if get_or_False kwargs "strictly"
                      then d >? 0 else d >=? 0)
          (np_diff (map (int ucd) column))).
Proof.
  intros Hall. apply forallb_digits_upto in Hall as (Hdigits & Hdec & Hrange).
  unfold _pandas. rewrite Hdigits, astype_int_Ok.
  - cbn [Py.bind]. now destruct (get_or_False kwargs "strictly").
  - exact Hdec.
  - eapply Forall_impl; [exact Hrange |]. intros n Hn. cbn beta in Hn. lia.
Qed.

(** Its length, and its elements: the comparison of the difference of
    adjacent values with 0. *)
Lemma pandas_mask_elements (column : list str) (kwargs : gmap string value) :
  forallb (digits_upto ucd INT64_MAX) column = true ->
  exists mask,
    _pandas ucd column kwargs = Ok mask /\
    length mask = (length column - 1)%nat /\
    (forall (i : nat) (x y : str),
        column !! i = Some x -> column !! S i = Some y ->
        mask !! i = Some (if get_or_False kwargs "strictly"
                          then int ucd y - int ucd x >? 0
                          else int ucd y - int ucd x >=? 0)).
Proof.
  intros Hall. eexists. split; [now apply pandas_mask |]. split.
  - now rewrite length_map, np_diff_length, length_map.
  - intros i x y Hx Hy. rewrite list_lookup_fmap.
    apply forallb_digits_upto in Hall as (_ & _ & Hrange).
    rewrite (np_diff_exact _ Hrange i (int ucd x) (int ucd y)).
    + reflexivity.
    + now rewrite list_lookup_fmap, Hx.
    + now rewrite list_lookup_fmap, Hy.
Qed.

End PandasMask.

(** C2 (as stated) fails on a column of digits whose value does not fit a
    64-bit integer: [astype(int)] raises and there is no mask. *)
Lemma C2_counterexample :
  forallb (str_isdigit ucd_excerpt)
    (map text ["99999999999999999999"; "1"]) = true /\
  _pandas ucd_excerpt (map text ["99999999999999999999"; "1"])
    {["strictly" := VBool false]}
  = Raise (OverflowError "Python int too large to convert to C long").
Proof. split; vm_compute; reflexivity. Qed.

(** C2 (amended).  For a column of [n] strings of decimal digits whose
    values fit a signed 64-bit integer, the array-vectorized variant
    returns a mask of length [n - 1]; its element [i] is
    [int(v[i+1]) - int(v[i]) > 0] when [strictly] is true and [>= 0]
    otherwise.  The column ["0","1","2","3","3","9","11"] gives an all-true
    mask without [strictly] and a mask with a false element with it. *)
Theorem C2_pandas_mask_of_adjacent_differences (ucd : N -> numeric_type)
    (column : list str) (kwargs : gmap string value) :
  forallb (digits_upto ucd INT64_MAX) column = true ->
  exists mask,
    _pandas ucd column kwargs = Ok mask /\
    length mask = (length column - 1)%nat /\
    (forall (i : nat) (x y : str),
        column !! i = Some x -> column !! S i = Some y ->
        mask !! i = Some (if get_or_False kwargs "strictly"
                          then int ucd y - int ucd x >? 0
                          else int ucd y - int ucd x >=? 0)) /\
    _pandas ucd (map text ["0"; "1"; "2"; "3"; "3"; "9"; "11"])
      {["strictly" := VBool false]}
    = Ok [true; true; true; true; true; true] /\
    _pandas ucd (map text ["0"; "1"; "2"; "3"; "3"; "9"; "11"])
      {["strictly" := VBool true]}
    = Ok [true; true; true; false; true; true].
Proof.
  intros Hall.
  destruct (pandas_mask_elements ucd column kwargs Hall)
    as (mask & Hrun & Hlen & Hel).
  exists mask. split; [exact Hrun |]. split; [exact Hlen |].
  split; [exact Hel |]. split; vm_compute; reflexivity.
Qed.

Lemma C2_witness :
  exists mask,
    _pandas ucd_excerpt (map text ["1"; "2"; "3"; "3"; "0"; "6"; "9"])
      {["strictly" := VBool false]}
    = Ok mask /\
    length mask = 6%nat /\
    mask !! 3%nat = Some false.
Proof.
  destruct (C2_pandas_mask_of_adjacent_differences ucd_excerpt
              (map text ["1"; "2"; "3"; "3"; "0"; "6"; "9"])
              {["strictly" := VBool false]} eq_refl)
    as (mask & Hrun & Hlen & Hel & _).
  exists mask. split; [exact Hrun | split; [exact Hlen |]].
  exact (Hel 3%nat (text "3") (text "0") eq_refl eq_refl).
Defined.

Section SparkMask.

Variable cast_other : str -> option Z.

(** Once its checks succeed, [_spark] reads the cells, rejects nulls, and
    compares every row with the row before it. *)
Lemma spark_after_checks (domain : compute_domain)
    (mdk mvk : gmap string value) (metrics : gmap string (list column_metadata)) :
  string_column mdk metrics = true ->
  _spark cast_other domain mdk mvk metrics =
  let column := map (cast_IntegerType cast_other) (df_column domain) in
  if existsb isNull column then cast_error else
  let diff := zip_with sql_sub column (lag column) in
  let diff := map (fun d => when_otherwise (Some (isNull d)) (Some 1) d) diff in
  (strictly <- getitem mvk "strictly" ;;
   let diff :=
     if bool_decide (strictly = VBool true)
     then map (fun d => when_otherwise (sql_le d 0) false true) diff
     else map (fun d => when_otherwise (sql_lt d 0) false true) diff in
   Ok (tail diff, compute_domain_kwargs domain, accessor_domain_kwargs domain)).
Proof.
  unfold string_column, _spark, getitem. intros Hchecks.
  destruct (mdk !! "column") as [column_name |]; [| discriminate].
  destruct (metrics !! "table.column_types") as [table_columns |];
    [| discriminate].
  cbn [Py.bind].
  destruct (List.filter _ table_columns) as [| col rest]; [discriminate |].
  cbn [Py.bind]. rewrite Hchecks. reflexivity.
Qed.

(** A cell that the cast turns into null is found by the null check. *)
Lemma null_cell_found (cells : list (option str)) (cell : option str) :
  In cell cells -> cast_IntegerType cast_other cell = None ->
  existsb isNull (map (cast_IntegerType cast_other) cells) = true.
Proof.
  intros Hin Hnull. apply existsb_exists.
  exists None. split; [| reflexivity].
  rewrite <- Hnull. now apply in_map.
Qed.

Lemma ascii_fold_nonneg (s : str) :
  forall acc,
    0 <= acc ->
    forallb (fun c => ((48 <=? c) && (c <=? 57))%N) s = true ->
    0 <= fold_left (fun acc c => 10 * acc + (Z.of_N c - 48)) s acc.
Proof.
  induction s as [| c s IH]; intros acc Hacc Hd; [exact Hacc |].
  cbn [fold_left forallb] in Hd |- *. apply andb_prop in Hd as [Hc Hs].
  apply andb_prop in Hc as [Hc _]. apply N.leb_le in Hc.
  apply IH; [lia | exact Hs].
Qed.

Lemma ascii_int_nonneg (s : str) : ascii_digits s = true -> 0 <= ascii_int s.
Proof.
  intros Hd. apply ascii_fold_nonneg; [lia |].
  destruct s; [discriminate | exact Hd].
Qed.

(** A string of digits within 32 bits is cast to its value. *)
Lemma cast_digits (s : str) :
  ascii_digits_upto INT32_MAX s = true ->
  cast_IntegerType cast_other (Some s) = Some (ascii_int s).
Proof.
  unfold ascii_digits_upto. intros [Hd Hr]%andb_prop.
  unfold cast_IntegerType. rewrite Hd, Hr, andb_true_r.
  assert (Hnonneg := ascii_int_nonneg s Hd).
  destruct (Z.leb_spec INT32_MIN (ascii_int s)) as [_ | Hlt];
    [reflexivity | unfold INT32_MIN in Hlt; lia].
Qed.

Lemma cast_digit_column (column : list str) :
  forallb (ascii_digits_upto INT32_MAX) column = true ->
  map (cast_IntegerType cast_other) (Some <$> column)
  = Some <$> map ascii_int column.
Proof.
  induction column as [| s column IH]; intros Hall; [reflexivity |].
  cbn [forallb] in Hall. apply andb_prop in Hall as [Hs Hrest].
  cbn [fmap list_fmap map]. rewrite (cast_digits s Hs). f_equal.
  exact (IH Hrest).
Qed.

(** A string of ASCII digits above 32 bits is cast to null. *)
Lemma cast_above_32_bits (s : str) :
  ascii_digits s = true -> INT32_MAX < ascii_int s ->
  cast_IntegerType cast_other (Some s) = None.
Proof.
  intros Hd Hgt. unfold cast_IntegerType. rewrite Hd.
  destruct (Z.leb_spec (ascii_int s) INT32_MAX) as [Hle | _]; [lia |].
  now rewrite andb_false_r.
Qed.

(** A string with a character outside ASCII is cast to null. *)
Lemma cast_non_ascii (s : str) :
  existsb (fun c => (128 <=? c)%N) s = true ->
  cast_IntegerType cast_other (Some s) = None.
Proof.
  intros Hex. unfold cast_IntegerType. rewrite Hex.
  assert (Hd : ascii_digits s = false).
  { apply not_true_is_false. intros Hd.
    apply existsb_exists in Hex as (c & Hin & Hc). apply N.leb_le in Hc.
    destruct s as [| c0 s]; [contradiction |].
    unfold ascii_digits in Hd. rewrite forallb_forall in Hd.
    specialize (Hd c Hin). apply andb_prop in Hd as [_ Hhi].
    apply N.leb_le in Hhi. lia. }
  now rewrite Hd.
Qed.

Lemma no_null_in_values (values : list Z) :
  existsb isNull (Some <$> values) = false.
Proof. induction values as [| v values IH]; [reflexivity | exact IH]. Qed.

(** Row by row, the windowed comparison of Spark and the comparison of
    [np.diff] give the same booleans on values between 0 and the largest
    32-bit integer.  [prev] is the value of the row before the first of
    [values]. *)
Lemma rows_agree (strictly : bool) (values : list Z) :
  forall prev,
    0 <= prev <= INT32_MAX ->
    Forall (fun n => 0 <= n <= INT32_MAX) values ->
    map (fun d => if strictly
                  then when_otherwise (sql_le d 0) false true
                  else when_otherwise (sql_lt d 0) false true)
      (map (fun d => when_otherwise (Some (isNull d)) (Some 1) d)
         (zip_with sql_sub (Some <$> values)
            (removelast (Some prev :: (Some <$> values)))))
    = map (fun d => if strictly then d >? 0 else d >=? 0)
        (zip_with (fun hi lo => wrap 64 (hi - lo)) values
           (removelast (prev :: values))).
Proof.
  induction values as [| cur values IH]; intros prev Hprev Hall;
    [reflexivity |].
  inversion Hall as [| ? ? Hcur Hrest]; subst.
  change (removelast (Some prev :: (Some <$> cur :: values)))
    with (Some prev :: removelast (Some cur :: (Some <$> values))).
  change (removelast (prev :: cur :: values))
    with (prev :: removelast (cur :: values)).
  cbn [fmap list_fmap zip_with map]. f_equal; [| exact (IH cur Hcur Hrest)].
  unfold INT32_MAX in *. unfold sql_sub.
  rewrite !wrap_small by (change (32 - 1) with 31; change (64 - 1) with 63; lia).
  cbn [isNull when_otherwise sql_le sql_lt].
  destruct strictly.
  - destruct (Z.leb_spec (cur - prev) 0), (Z.gtb_spec (cur - prev) 0);
      reflexivity || lia.
  - destruct (Z.ltb_spec (cur - prev) 0), (Z.geb_spec (cur - prev) 0);
      reflexivity || lia.
Qed.

End SparkMask.
Section CrossBackend.

Variable ucd : N -> numeric_type.
Variable cast_other : str -> option Z.

(** The ASCII digits are decimal digits, with the value Spark reads. *)
Lemma ascii_digit_decimal (c : N) :
  ((48 <=? c) && (c <=? 57))%N = true ->
  is_decimal ucd c = true /\ decimal_value ucd c = Z.of_N c - 48.
Proof.
  intros Hc. unfold is_decimal, decimal_value, numeric_type_of. rewrite Hc.
  split; [reflexivity |].
  apply andb_prop in Hc as [Hlo Hhi]. apply N.leb_le in Hlo, Hhi.
  rewrite digit_value_nth by lia. lia.
Qed.

(** A decimal digit within ASCII is one of 0 to 9. *)
Lemma decimal_within_ascii (c : N) :
  is_decimal ucd c = true -> (128 <=? c)%N = false ->
  ((48 <=? c) && (c <=? 57))%N = true.
Proof.
  unfold is_decimal, numeric_type_of. intros Hd Hc. apply N.leb_gt in Hc.
  destruct ((48 <=? c) && (c <=? 57))%N; [reflexivity |].
  destruct ((c =? 178) || (c =? 179) || (c =? 185))%N; [discriminate |].
  destruct (N.ltb_spec c 256) as [_ | Hge]; [discriminate | lia].
Qed.

Lemma int_from_ascii (s : str) :
  forallb (fun c => ((48 <=? c) && (c <=? 57))%N) s = true ->
  forall acc,
    int_from ucd acc s
    = fold_left (fun acc c => 10 * acc + (Z.of_N c - 48)) s acc.
Proof.
  induction s as [| c s IH]; intros Hd acc; [reflexivity |].
  cbn [forallb] in Hd. apply andb_prop in Hd as [Hc Hs].
  cbn [int_from fold_left].
  rewrite (proj2 (ascii_digit_decimal c Hc)). exact (IH Hs _).
Qed.

(** Both backends read a string of ASCII digits as the same number. *)
Lemma ascii_digits_decimal (s : str) :
  ascii_digits s = true ->
  str_isdecimal ucd s = true /\ int ucd s = ascii_int s.
Proof.
  intros Hd. destruct s as [| c s]; [discriminate |].
  unfold ascii_digits in Hd. split.
  - unfold str_isdecimal. rewrite forallb_forall in Hd |- *.
    intros x Hx. exact (proj1 (ascii_digit_decimal x (Hd x Hx))).
  - exact (int_from_ascii _ Hd 0).
Qed.

(** A string of decimal digits that stays within ASCII is a string of the
    digits 0 to 9. *)
Lemma decimal_ascii_digits (s : str) :
  str_isdecimal ucd s = true ->
  existsb (fun c => (128 <=? c)%N) s = false ->
  ascii_digits s = true.
Proof.
  intros Hd Hex. destruct s as [| c s]; [discriminate |].
  unfold str_isdecimal in Hd. unfold ascii_digits.
  rewrite forallb_forall in Hd |- *. intros x Hx.
  apply decimal_within_ascii; [exact (Hd x Hx) |].
  apply not_true_is_false. intros Hge.
  assert (Hfound : existsb (fun c => (128 <=? c)%N) (c :: s) = true).
  { apply existsb_exists. now exists x. }
  congruence.
Qed.

Lemma ascii_column_values (bound : Z) (column : list str) :
  forallb (ascii_digits_upto bound) column = true ->
  forallb (digits_upto ucd bound) column = true /\
  map (int ucd) column = map ascii_int column.
Proof.
  induction column as [| s column IH]; intros Hall; [now split |].
  cbn [forallb] in Hall. apply andb_prop in Hall as [Hs Hrest].
  destruct (IH Hrest) as [Hall Hvalues].
  unfold ascii_digits_upto in Hs. apply andb_prop in Hs as [Hd Hb].
  destruct (ascii_digits_decimal s Hd) as [Hdec Hint].
  cbn [forallb map]. unfold digits_upto at 1.
  rewrite Hdec, Hint, Hb, Hall, Hvalues. now split.
Qed.

(** A string of decimal digits that is no string of ASCII digits within
    32 bits is cast to null by Spark. *)
Lemma decimal_cast_null (s : str) :
  str_isdecimal ucd s = true ->
  ascii_digits_upto INT32_MAX s = false ->
  cast_IntegerType cast_other (Some s) = None.
Proof.
  intros Hdec Hno. unfold ascii_digits_upto in Hno.
  destruct (ascii_digits s) eqn:Hd.
  - apply cast_above_32_bits; [exact Hd |].
    cbn [andb] in Hno. apply Z.leb_gt in Hno. exact Hno.
  - apply cast_non_ascii.
    destruct (existsb (fun c => (128 <=? c)%N) s) eqn:Hex; [reflexivity |].
    rewrite (decimal_ascii_digits s Hdec Hex) in Hd. discriminate.
Qed.

(** What is left of Spark's comparison column after the first row is
    dropped is the comparison of [np.diff]. *)
Lemma spark_tail_agree (strictly : bool) (values : list Z) :
  Forall (fun n => 0 <= n <= INT32_MAX) values ->
  tail (map (fun d => if strictly
                      then when_otherwise (sql_le d 0) false true
                      else when_otherwise (sql_lt d 0) false true)
          (map (fun d => when_otherwise (Some (isNull d)) (Some 1) d)
             (zip_with sql_sub (Some <$> values) (lag (Some <$> values)))))
  = map (fun d => if strictly then d >? 0 else d >=? 0) (np_diff values).
Proof.
  intros Hall. destruct values as [| first values]; [reflexivity |].
  inversion Hall as [| ? ? Hfirst Hrest]; subst.
  exact (rows_agree strictly values first Hfirst Hrest).
Qed.

End CrossBackend.

(** C1.  The claim fails on the code: the two variants return the same
    mask only on strings of ASCII digits whose values fit 32 bits.  A
    column of digits with a value above the largest 32-bit integer, and a
    column of Arabic-Indic digits, give a mask with the array-vectorized
    variant, which reads 64-bit integers and every decimal digit, and the
    type error with the distributed-windowed variant, whose cast to
    [IntegerType] turns these strings into null. *)
Theorem C1_spark_raises_where_pandas_returns (ucd : N -> numeric_type)
    (cast_other : str -> option Z) :
  forallb (str_isdigit ucd) (map text ["3000000000"; "1"]) = true /\
  _pandas ucd (map text ["3000000000"; "1"]) {["strictly" := VBool false]}
  = Ok [false] /\
  _spark cast_other
    (mk_compute_domain (Some <$> map text ["3000000000"; "1"]) ∅ ∅)
    {["column" := VStr "a"]} {["strictly" := VBool false]}
    {["table.column_types" := [mk_metadata "a" (Atomic StringType)]]}
  = Raise (TypeError "Column must be a string-type capable of being cast to int.") /\
  forallb (str_isdigit ucd) [[1633%N]; [1634%N]] = true /\
  _pandas ucd [[1633%N]; [1634%N]] {["strictly" := VBool false]} = Ok [true] /\
  _spark cast_other
    (mk_compute_domain [Some [1633%N]; Some [1634%N]] ∅ ∅)
    {["column" := VStr "a"]} {["strictly" := VBool false]}
    {["table.column_types" := [mk_metadata "a" (Atomic StringType)]]}
  = Raise (TypeError "Column must be a string-type capable of being cast to int.").
Proof. repeat split; vm_compute; reflexivity. Qed.

(** C8.  When the cast to integer leaves a null in some cell of the
    column, the distributed-windowed variant raises and returns no mask:
    the type error of the null check when the checks on the column succeed,
    the error of the failing check otherwise. *)
Theorem C8_null_after_cast_raises (cast_other : str -> option Z)
    (domain : compute_domain) (mdk mvk : gmap string value)
    (metrics : gmap string (list column_metadata)) (cell : option str) :
  In cell (df_column domain) ->
  cast_IntegerType cast_other cell = None ->
  raises (_spark cast_other domain mdk mvk metrics) /\
  (string_column mdk metrics = true ->
   _spark cast_other domain mdk mvk metrics
   = Raise (TypeError "Column must be a string-type capable of being cast to int.")).
Proof.
  intros Hin Hnull.
  assert (Hfound := null_cell_found cast_other _ _ Hin Hnull).
  split.
  - unfold _spark.
    destruct (getitem mdk "column") as [column_name | e];
      [cbn [Py.bind] | now exists e].
    destruct (getitem metrics "table.column_types") as [table_columns | e];
      [cbn [Py.bind] | now exists e].
    destruct (List.filter _ table_columns) as [| col rest];
      [now eexists | cbn [Py.bind]].
    destruct (is_StringType (md_type col)); [cbn [Py.bind] | now eexists].
    rewrite Hfound. now eexists.
  - intros Hchecks. rewrite (spark_after_checks _ _ _ _ _ Hchecks).
    cbn zeta. now rewrite Hfound.
Qed.

Lemma C8_witness :
  raises
    (_spark (fun _ => None)
       (mk_compute_domain [Some (text "1"); None; Some (text "3")] ∅ ∅)
       {["column" := VStr "a"]} {["strictly" := VBool false]}
       {["table.column_types" := [mk_metadata "a" (Atomic StringType)]]}).
Proof.
  apply (C8_null_after_cast_raises (fun _ => None)
           (mk_compute_domain [Some (text "1"); None; Some (text "3")] ∅ ∅)
           {["column" := VStr "a"]} {["strictly" := VBool false]}
           {["table.column_types" := [mk_metadata "a" (Atomic StringType)]]}
           None).
  - simpl. tauto.
  - reflexivity.
Defined.

(** C10.  Without [strictly] in the kwargs, or with [strictly] set to
    [None], the array-vectorized variant returns what it returns for
    [strictly = False]: on a column it can read, the mask of the non-strict
    comparison, whose element [i] is [int(v[i+1]) - int(v[i]) >= 0].  The
    distributed-windowed variant reads [metric_value_kwargs["strictly"]]:
    without the key it never returns a mask, and wherever it returns a mask
    with the key present it raises the missing-key error with the key
    removed. *)
Theorem C10_strictly_has_no_shared_default (ucd : N -> numeric_type)
    (cast_other : str -> option Z)
    (column : list str) (kwargs : gmap string value)
    (domain : compute_domain) (mdk mvk : gmap string value)
    (metrics : gmap string (list column_metadata)) :
  kwargs !! "strictly" = None \/ kwargs !! "strictly" = Some VNone ->
  _pandas ucd column kwargs
  = _pandas ucd column (<["strictly" := VBool false]> kwargs) /\
  (forallb (digits_upto ucd INT64_MAX) column = true ->
   exists mask,
     _pandas ucd column kwargs = Ok mask /\
     _pandas ucd column (<["strictly" := VBool false]> kwargs) = Ok mask /\
     length mask = (length column - 1)%nat /\
     forall (i : nat) (x y : str),
       column !! i = Some x -> column !! S i = Some y ->
       mask !! i = Some (int ucd y - int ucd x >=? 0)) /\
  raises (_spark cast_other domain mdk (delete "strictly" mvk) metrics) /\
  (forall v r,
      _spark cast_other domain mdk (<["strictly" := v]> mvk) metrics = Ok r ->
      _spark cast_other domain mdk (delete "strictly" mvk) metrics
      = Raise (KeyError "strictly")).
Proof.
  intros Habsent.
  assert (Hsame : _pandas ucd column kwargs
                  = _pandas ucd column (<["strictly" := VBool false]> kwargs)).
  { unfold _pandas, get_or_False. rewrite lookup_insert_eq.
    now destruct Habsent as [-> | ->]. }
  assert (Hdefault : get_or_False kwargs "strictly" = false).
  { unfold get_or_False. now destruct Habsent as [-> | ->]. }
  split; [exact Hsame |]. split; [| split].
  - intros Hcolumn.
    destruct (pandas_mask_elements ucd column kwargs Hcolumn)
      as (mask & Hrun & Hlen & Hel).
    exists mask. split; [exact Hrun |]. split; [now rewrite <- Hsame |].
    split; [exact Hlen |]. intros i x y Hx Hy.
    rewrite (Hel i x y Hx Hy), Hdefault. reflexivity.
  - unfold _spark.
    destruct (getitem mdk "column") as [column_name | e];
      [cbn [Py.bind] | now exists e].
    destruct (getitem metrics "table.column_types") as [table_columns | e];
      [cbn [Py.bind] | now exists e].
    destruct (List.filter _ table_columns) as [| col rest];
      [now eexists | cbn [Py.bind]].
    destruct (is_StringType (md_type col)); [cbn [Py.bind] | now eexists].
    destruct (existsb isNull _); [now eexists |].
    unfold getitem. rewrite lookup_delete_eq. now eexists.
  - intros v r. unfold _spark.
    destruct (getitem mdk "column") as [column_name | e];
      [cbn [Py.bind] | discriminate].
    destruct (getitem metrics "table.column_types") as [table_columns | e];
      [cbn [Py.bind] | discriminate].
    destruct (List.filter _ table_columns) as [| col rest];
      [discriminate | cbn [Py.bind]].
    destruct (is_StringType (md_type col)); [cbn [Py.bind] | discriminate].
    destruct (existsb isNull _); [discriminate |].
    intros _. unfold getitem. now rewrite lookup_delete_eq.
Qed.

Lemma C10_witness :
  _pandas ucd_excerpt (map text ["1"; "1"; "0"]) ∅ = Ok [true; false] /\
  _pandas ucd_excerpt (map text ["1"; "1"; "0"]) {["strictly" := VBool false]}
  = Ok [true; false] /\
  _spark (fun _ => None)
    (mk_compute_domain (Some <$> map text ["1"; "1"; "0"]) ∅ ∅)
    {["column" := VStr "a"]} ∅
    {["table.column_types" := [mk_metadata "a" (Atomic StringType)]]}
  = Raise (KeyError "strictly").
Proof.
  destruct (C10_strictly_has_no_shared_default ucd_excerpt (fun _ => None)
              (map text ["1"; "1"; "0"]) ∅
              (mk_compute_domain (Some <$> map text ["1"; "1"; "0"]) ∅ ∅)
              {["column" := VStr "a"]} ∅
              {["table.column_types" := [mk_metadata "a" (Atomic StringType)]]}
              ltac:(left; reflexivity))
    as (_ & Hpandas & _ & Hspark).
  destruct (Hpandas eq_refl) as (mask & Hrun & Hfalse & Hlen & Hel).
  assert (H0 := Hel 0%nat (text "1") (text "1") eq_refl eq_refl).
  assert (H1 := Hel 1%nat (text "1") (text "0") eq_refl eq_refl).
  assert (Hmask : mask = [true; false]).
  { destruct mask as [| a [| b [| c mask]]]; try discriminate Hlen.
    cbn in H0, H1. now injection H0 as ->; injection H1 as ->. }
  subst mask. split; [exact Hrun |]. split; [exact Hfalse |].
  exact (Hspark (VBool true) _ eq_refl).
Defined.

(** ** The verdict *)

Section Verdict.

Lemma all_true_iff (mask : list bool) :
  all mask = true <-> forall b, In b mask -> b = true.
Proof. unfold all. rewrite forallb_forall. reflexivity. Qed.

Lemma insert_sorted_false (l : list bool) : insert_sorted false l = false :: l.
Proof. now destruct l. Qed.

Lemma insert_sorted_true (nf nt : nat) :
  insert_sorted true (repeat false nf ++ repeat true nt)
  = repeat false nf ++ repeat true (S nt).
Proof.
  induction nf as [| nf IH]; [now destruct nt |].
  cbn [repeat app insert_sorted bool_leb implb]. now rewrite IH.
Qed.

(** Sorting a boolean array puts its [False]s before its [True]s. *)
Lemma np_sort_counts (ar : list bool) :
  np_sort ar = repeat false (count_occ bool_dec ar false)
               ++ repeat true (count_occ bool_dec ar true).
Proof.
  induction ar as [| b ar IH]; [reflexivity |].
  change (np_sort (b :: ar)) with (insert_sorted b (np_sort ar)).
  rewrite IH. destruct b.
  - rewrite insert_sorted_true.
    rewrite (count_occ_cons_eq bool_dec ar (eq_refl true)).
    now rewrite (count_occ_cons_neq bool_dec ar (x := true) (y := false)).
  - rewrite insert_sorted_false.
    rewrite (count_occ_cons_eq bool_dec ar (eq_refl false)).
    now rewrite (count_occ_cons_neq bool_dec ar (x := false) (y := true)).
Qed.

Lemma runs_true (nt : nat) :
  runs (repeat true nt) = match nt with O => [] | S _ => [(true, nt)] end.
Proof.
  induction nt as [| nt IH]; [reflexivity |].
  cbn [repeat runs]. rewrite IH. now destruct nt.
Qed.

Lemma runs_false_true (nf nt : nat) :
  runs (repeat false nf ++ repeat true nt)
  = match nf with O => [] | S _ => [(false, nf)] end
    ++ match nt with O => [] | S _ => [(true, nt)] end.
Proof.
  induction nf as [| nf IH]; [apply runs_true |].
  cbn [repeat app runs]. rewrite IH. now destruct nf, nt.
Qed.

(** The summary [np.unique] returns for a boolean array. *)
Lemma np_unique_counts_eq (ar : list bool) :
  np_unique_counts ar =
  let nf := count_occ bool_dec ar false in
  let nt := count_occ bool_dec ar true in
  (match nf with O => [] | S _ => [false] end
   ++ match nt with O => [] | S _ => [true] end,
   match nf with O => [] | S _ => [nf] end
   ++ match nt with O => [] | S _ => [nt] end).
Proof.
  unfold np_unique_counts. rewrite np_sort_counts, runs_false_true. cbn zeta.
  now destruct (count_occ bool_dec ar false), (count_occ bool_dec ar true).
Qed.

(** The summary lists every value of the array once, with the number of
    times it occurs. *)
Lemma np_unique_counts_summary (ar : list bool) :
  let (values, counts) := np_unique_counts ar in
  NoDup values /\
  length counts = length values /\
  (forall v, In v values <-> In v ar) /\
  (forall (i : nat) v, values !! i = Some v ->
     counts !! i = Some (count_occ bool_dec ar v)).
Proof.
  rewrite np_unique_counts_eq. cbn zeta.
  assert (Hin : forall v, In v ar <-> (count_occ bool_dec ar v > 0)%nat)
    by (intros v; apply count_occ_In).
  destruct (count_occ bool_dec ar false) as [| nf] eqn:Hf,
           (count_occ bool_dec ar true) as [| nt] eqn:Ht;
    cbn [app length]; (split; [| split; [reflexivity | split]]).
  - constructor.
  - intros [|]; rewrite Hin, ?Hf, ?Ht; cbn [In]; split; (tauto || lia).
  - intros [| i] v; discriminate.
  - apply NoDup_singleton.
  - intros [|]; rewrite Hin, ?Hf, ?Ht; cbn [In]; split;
      try tauto; try lia; intros [? | []]; discriminate.
  - intros [| [| i]] v; try discriminate. intros [= <-]. now rewrite Ht.
  - apply NoDup_singleton.
  - intros [|]; rewrite Hin, ?Hf, ?Ht; cbn [In]; split;
      try tauto; try lia; intros [? | []]; discriminate.
  - intros [| [| i]] v; try discriminate. intros [= <-]. now rewrite Hf.
  - apply NoDup_cons_2; [| apply NoDup_singleton].
    intros Hel. apply list_elem_of_In in Hel. destruct Hel as [? | []].
    discriminate.
  - intros [|]; rewrite Hin, ?Hf, ?Ht; cbn [In]; split; try tauto; lia.
  - intros [| [| [| i]]] v; try discriminate; intros [= <-];
      now rewrite ?Hf, ?Ht.
Qed.

(** A column of at most one row has no adjacent pair to compare. *)
Lemma pandas_short_column (ucd : N -> numeric_type) (column : list str)
    (kwargs : gmap string value) (mask : list bool) :
  (length column <= 1)%nat -> _pandas ucd column kwargs = Ok mask -> mask = [].
Proof.
  intros Hlen. destruct column as [| s [| s' column]];
    [| | cbn [length] in Hlen; lia]; unfold _pandas.
  - cbn. destruct (get_or_False kwargs "strictly"); now intros [= <-].
  - cbn [forallb astype_int]. rewrite andb_true_r.
    destruct (str_isdigit ucd s); [| discriminate].
    destruct (str_isdecimal ucd s); [| discriminate].
    destruct (int ucd s <=? INT64_MAX); [| discriminate].
    cbn. destruct (get_or_False kwargs "strictly"); now intros [= <-].
Qed.

End Verdict.

(** C4.  The verdict succeeds exactly when every element of the mask is
    true, so it succeeds on the empty mask of an empty or single-row
    column; the observed value is the summary of [np.unique]: the distinct
    values of the mask, each once, with the number of times it occurs. *)
Theorem C4_verdict_is_all_of_mask (MAP : string)
    (metrics : gmap string metric_value) (mask : list bool)
    (cdk adk : gmap string value) :
  metrics !! ("column_values.string_integers.increasing." +:+ MAP)
  = Some (mask, cdk, adk) ->
  exists verdict,
    _validate MAP metrics = Ok verdict /\
    (success verdict = true <-> forall b, In b mask -> b = true) /\
    (forall ucd column kwargs,
        (length column <= 1)%nat -> _pandas ucd column kwargs = Ok mask ->
        length mask = 0%nat /\ success verdict = true) /\
    observed_value verdict = np_unique_counts mask /\
    (let (values, counts) := observed_value verdict in
     NoDup values /\
     length counts = length values /\
     (forall v, In v values <-> In v mask) /\
     (forall (i : nat) v, values !! i = Some v ->
        counts !! i = Some (count_occ bool_dec mask v))).
Proof.
  intros Hmetric. unfold _validate. rewrite Hmetric. cbn [fst].
  eexists. split; [reflexivity |]. cbn [success observed_value].
  split; [apply all_true_iff |]. split; [| split; [reflexivity |]].
  - intros ucd column kwargs Hlen Hrun.
    now rewrite (pandas_short_column ucd column kwargs mask Hlen Hrun).
  - apply np_unique_counts_summary.
Qed.

Lemma C4_witness :
  exists verdict,
    _validate "map"
      {["column_values.string_integers.increasing.map" :=
          ([true; true; true; false; true; true], ∅, ∅)]} = Ok verdict /\
    success verdict = false /\
    observed_value verdict = ([false; true], [1%nat; 5%nat]).
Proof.
  assert (Hmetric :
    ({["column_values.string_integers.increasing.map" :=
         ([true; true; true; false; true; true], ∅, ∅)]}
       : gmap string metric_value)
      !! ("column_values.string_integers.increasing." +:+ "map")
    = Some ([true; true; true; false; true; true], ∅, ∅))
    by (vm_compute; reflexivity).
  destruct (C4_verdict_is_all_of_mask "map" _ _ _ _ Hmetric)
    as (verdict & Hrun & Hsuccess & _ & Hobserved & _).
  exists verdict. split; [exact Hrun |]. split; [| exact Hobserved].
  apply not_true_is_false. intros Htrue.
  specialize (proj1 Hsuccess Htrue false). simpl. intuition discriminate.
Defined.

(** * Further properties of the code *)

(** ** [ColumnTypes._spark] and [_get_spark_column_metadata] *)


(** X1.  [ColumnTypes._spark] needs the key "include_nested" in the value
    kwargs and raises the missing-key error without it.  With the key, on
    the schema of a data frame, it returns the entries of all fields,
    nested ones included, whatever value the key has: [False] does not
    keep the nested fields out. *)
Theorem X1_column_types_spark_include_nested (fields : list obj)
    (metric_value_kwargs : gmap string value) :
  is_DataType (StructType fields) = true ->
  (metric_value_kwargs !! "include_nested" = None ->
   ColumnTypesMetric._spark true (StructType fields) metric_value_kwargs
   = Raise (KeyError "include_nested")) /\
  (forall v, metric_value_kwargs !! "include_nested" = Some v ->
   exists cols,
     ColumnTypesMetric._spark true (StructType fields) metric_value_kwargs
     = Ok cols /\
     map md_type cols = flat_map ColumnTypesMetric.field_types fields /\
     ColumnTypesMetric._spark true (StructType fields)
       (<["include_nested" := VBool true]> metric_value_kwargs) = Ok cols).
Proof.
  intros Hvalid. unfold ColumnTypesMetric._spark, getitem. split.
  - now intros ->.
  - intros v ->. rewrite lookup_insert_eq. cbn [Py.bind].
    destruct (schema_types_flattened fields (truthy v) Hvalid)
      as (cols & Hrun & Htypes).
    exists cols. split; [exact Hrun |]. split; [exact Htypes |].
    rewrite metadata_StructType in *. exact Hrun.
Qed.

Lemma X1_witness :
  ColumnTypesMetric._spark true
    (StructType [StructField "outer"
                   (StructType [StructField "inner" (Atomic LongType) true])
                   true]) ∅
  = Raise (KeyError "include_nested") /\
  exists cols,
    ColumnTypesMetric._spark true
      (StructType [StructField "outer"
                     (StructType [StructField "inner" (Atomic LongType) true])
                     true]) {["include_nested" := VBool false]}
    = Ok cols /\
    map md_type cols
    = [StructType [StructField "inner" (Atomic LongType) true];
       Atomic LongType].
Proof.
  destruct (X1_column_types_spark_include_nested
              [StructField "outer"
                 (StructType [StructField "inner" (Atomic LongType) true])
                 true] ∅ eq_refl) as [Hmissing _].
  destruct (X1_column_types_spark_include_nested
              [StructField "outer"
                 (StructType [StructField "inner" (Atomic LongType) true])
                 true] {["include_nested" := VBool false]} eq_refl)
    as [_ Hpresent].
  split.
  - apply Hmissing. reflexivity.
  - destruct (Hpresent (VBool false)) as (cols & Hrun & Htypes & _);
      [reflexivity |].
    exists cols. split; [exact Hrun | exact Htypes].
Defined.

(** X2.  On a schema pyspark accepts the flattening drops no field and
    repeats none: the types of the entries are the data types of the
    fields, each field before the fields nested in it, in schema order. *)
Theorem X2_flattening_keeps_every_field_in_order (fields : list obj)
    (incl : bool) :
  is_DataType (StructType fields) = true ->
  exists cols,
    _get_spark_column_metadata true (StructType fields) "" incl = Ok cols /\
    map md_type cols = flat_map ColumnTypesMetric.field_types fields /\
    length cols = length (flat_map ColumnTypesMetric.field_types fields).
Proof.
  intros Hvalid.
  destruct (schema_types_flattened fields incl Hvalid)
    as (cols & Hrun & Htypes).
  exists cols. split; [exact Hrun |]. split; [exact Htypes |].
  now rewrite <- Htypes, length_map.
Qed.

Lemma X2_witness :
  exists cols,
    _get_spark_column_metadata true
      (StructType
         [StructField "outer"
            (StructType [StructField "inner" (Atomic LongType) true]) true;
          StructField "id" (Atomic StringType) false]) "" false = Ok cols /\
    length cols = 3%nat.
Proof.
  destruct (X2_flattening_keeps_every_field_in_order
              [StructField "outer"
                 (StructType [StructField "inner" (Atomic LongType) true]) true;
               StructField "id" (Atomic StringType) false] false eq_refl)
    as (cols & Hrun & _ & Hlen).
  exists cols. split; [exact Hrun | exact Hlen].
Defined.

(** X3.  The backticks do not make the names unique: a field [own] under
    a struct field named "p.q" and a field [own] under the struct field
    "q" of the struct field "p" get the same name, because the prefix of
    the children uses the name of the parent without backticks. *)
Theorem X3_backticks_do_not_separate_nested_names (fields : list obj)
    (p q own : string) (dt1 dt2 : obj) (b1 b2 : bool) :
  is_DataType (StructType fields) = true ->
  p <> "" -> q <> "" ->
  field_under [p +:+ "." +:+ q] (StructField own dt1 b1) fields ->
  field_under [p; q] (StructField own dt2 b2) fields ->
  exists cols,
    _get_spark_column_metadata true (StructType fields) "" true = Ok cols /\
    In (mk_metadata (p +:+ "." +:+ q +:+ "." +:+ quoted own) dt1) cols /\
    In (mk_metadata (p +:+ "." +:+ q +:+ "." +:+ quoted own) dt2) cols.
Proof.
  intros Hvalid Hp Hq Hone Htwo.
  destruct (schema_returns fields "" true Hvalid) as [cols Hrun].
  exists cols. split; [exact Hrun |]. split.
  - assert (Hentry := schema_path_entry fields true cols _ own dt1 b1
                        Hrun Hone).
    unfold nested_name in Hentry. cbn [app String.concat] in Hentry.
    rewrite append_assoc in Hentry. apply Hentry.
    intros Hempty. apply append_eq_empty in Hempty. now apply Hp.
  - assert (Hentry := schema_path_entry fields true cols _ own dt2 b2
                        Hrun Htwo).
    unfold nested_name in Hentry. cbn [app String.concat] in Hentry.
    apply Hentry. exact Hp.
Qed.

Lemma X3_witness :
  exists cols,
    _get_spark_column_metadata true
      (StructType
         [StructField "a.b"
            (StructType [StructField "c" (Atomic StringType) true]) true;
          StructField "a"
            (StructType
               [StructField "b"
                  (StructType [StructField "c" (Atomic LongType) true]) true])
            true]) "" true = Ok cols /\
    In (mk_metadata "a.b.c" (Atomic StringType)) cols /\
    In (mk_metadata "a.b.c" (Atomic LongType)) cols.
Proof.
  apply (X3_backticks_do_not_separate_nested_names
           [StructField "a.b"
              (StructType [StructField "c" (Atomic StringType) true]) true;
            StructField "a"
              (StructType
                 [StructField "b"
                    (StructType [StructField "c" (Atomic LongType) true]) true])
              true]
           "a" "b" "c" (Atomic StringType) (Atomic LongType) true true).
  - reflexivity.
  - discriminate.
  - discriminate.
  - eapply under_struct; [simpl; eauto |]. constructor. simpl. eauto.
  - eapply under_struct; [simpl; eauto |].
    eapply under_struct; [simpl; eauto |]. constructor. simpl. eauto.
Defined.

(** X4.  Called on a field of a schema, the flattening obeys
    [include_nested]: with [False] it returns the entry of the field
    alone; with [True] it returns that entry followed by the flattening,
    with nesting, of the fields of its struct type under the prefix of the
    field's name, so that the types of the entries are the types of the
    field and of every field nested in it. *)
Theorem X4_field_call_obeys_include_nested (name : string) (dt : obj)
    (b : bool) (p : string) :
  is_field (StructField name dt b) = true ->
  exists nested,
    _get_spark_column_metadata true (StructField name dt b) p true
    = Ok (mk_metadata (field_entry_name (dot_suffix p) name) dt :: nested) /\
    _get_spark_column_metadata true (StructField name dt b) p false
    = Ok [mk_metadata (field_entry_name (dot_suffix p) name) dt] /\
    extend_with
      (fun child =>
         _get_spark_column_metadata true child (dot_suffix p +:+ name) true)
      (fields_of dt) [] = Ok nested /\
    map md_type (mk_metadata (field_entry_name (dot_suffix p) name) dt :: nested)
    = ColumnTypesMetric.field_types (StructField name dt b).
Proof.
  intros Hfield.
  destruct (field_types_flattened _ Hfield p) as (cols & Hrun & Htypes).
  rewrite !metadata_StructField. rewrite metadata_StructField in Hrun.
  cbn zeta in *. cbn [andb] in *.
  destruct (is_StructType dt) eqn:Hstruct.
  - rewrite extend_with_shift in Hrun |- *.
    destruct (extend_with _ (fields_of dt) []) as [nested | e];
      [| discriminate Hrun].
    cbn [Py.bind] in *. injection Hrun as <-.
    exists nested. repeat split. exact Htypes.
  - injection Hrun as <-. exists [].
    destruct dt; try discriminate Hstruct; repeat split; exact Htypes.
Qed.

Lemma X4_witness :
  exists nested,
    _get_spark_column_metadata true
      (StructField "outer"
         (StructType [StructField "inner" (Atomic LongType) true]) true)
      "" true
    = Ok (mk_metadata "outer"
            (StructType [StructField "inner" (Atomic LongType) true])
          :: nested) /\
    map md_type nested = [Atomic LongType].
Proof.
  destruct (X4_field_call_obeys_include_nested "outer"
              (StructType [StructField "inner" (Atomic LongType) true])
              true "" eq_refl) as (nested & Htrue & _ & _ & Htypes).
  exists nested. split; [exact Htrue |].
  cbn in Htypes. now injection Htypes.
Defined.

(** ** [ColumnTypes._sqlalchemy] and [_get_sqlalchemy_column_metadata] *)

Section SqlAlchemyFacts.

Import GE ColumnTypesMetric.

Variables Engine Metadata : Type.
Variable get_metadata :
  Engine -> table_selectable -> option string -> outcome Metadata.

Lemma sqlalchemy_default_batch (flag : bool) (engine : Engine)
    (manager : batch_manager) (mdk : gmap string value) (active : string) :
  no_batch_id mdk ->
  active_batch_data_id manager = Some active ->
  _sqlalchemy Engine Metadata get_metadata flag engine manager mdk
  = _sqlalchemy Engine Metadata get_metadata flag engine manager
      (<["batch_id" := VStr active]> mdk).
Proof.
  intros Hnone Hactive. unfold _sqlalchemy. rewrite lookup_insert_eq.
  destruct Hnone as [-> | ->]; now rewrite Hactive.
Qed.

Lemma sqlalchemy_explicit_batch (flag : bool) (engine : Engine)
    (cache : gmap string SqlAlchemyBatchData) (mdk : gmap string value)
    (v : value) (active active' : option string) :
  mdk !! "batch_id" = Some v -> v <> VNone ->
  _sqlalchemy Engine Metadata get_metadata flag engine
    (mk_batch_manager active cache) mdk
  = _sqlalchemy Engine Metadata get_metadata flag engine
      (mk_batch_manager active' cache) mdk.
Proof.
  intros Hv Hne. unfold _sqlalchemy. rewrite Hv.
  destruct v; [now elim Hne | reflexivity ..].
Qed.

(** [a or o.attr] does not read the attribute when [a] is a non-empty
    string, and is the attribute otherwise. *)
Lemma or_attr_given {A} (s : string) (of_str : string -> A) (attr : outcome A) :
  s <> "" -> or_attr (Some s) of_str attr = Return (of_str s).
Proof. intros Hs. unfold or_attr. apply String.eqb_neq in Hs. now rewrite Hs. Qed.

Lemma or_attr_absent {A} (a : option string) (of_str : string -> A)
    (attr : outcome A) :
  a = None \/ a = Some "" -> or_attr a of_str attr = attr.
Proof. now intros [-> | ->]. Qed.

End SqlAlchemyFacts.

(** X5.  [ColumnTypes._sqlalchemy] takes the batch named by "batch_id" in
    the domain kwargs and the active batch only when there is none: a
    given batch id is never replaced by the active one, so a batch id that
    is not in the cache raises even while an active batch is loaded;
    without a batch id the call is the call with the id of the active
    batch, and raises when no batch is active. *)
Theorem X5_sqlalchemy_batch_resolution (Engine Metadata : Type)
    (get_metadata :
       Engine -> ColumnTypesMetric.table_selectable -> option string ->
       GE.outcome Metadata)
    (flag : bool) (engine : Engine)
    (active : option string)
    (cache : gmap string ColumnTypesMetric.SqlAlchemyBatchData)
    (mdk : gmap string value) :
  (forall v, mdk !! "batch_id" = Some v -> v <> VNone ->
     (forall active',
        ColumnTypesMetric._sqlalchemy Engine Metadata get_metadata flag engine
          (ColumnTypesMetric.mk_batch_manager active cache) mdk
        = ColumnTypesMetric._sqlalchemy Engine Metadata get_metadata flag engine
            (ColumnTypesMetric.mk_batch_manager active' cache) mdk) /\
     (ColumnTypesMetric.cache_get cache v = None ->
      ColumnTypesMetric._sqlalchemy Engine Metadata get_metadata flag engine
        (ColumnTypesMetric.mk_batch_manager active cache) mdk
      = GE.Throw (GE.GreatExpectationsError
          "the requested batch is not available; please load the batch into the execution engine."))) /\
  (ColumnTypesMetric.no_batch_id mdk ->
     match active with
     | Some id =>
         ColumnTypesMetric._sqlalchemy Engine Metadata get_metadata flag engine
           (ColumnTypesMetric.mk_batch_manager active cache) mdk
         = ColumnTypesMetric._sqlalchemy Engine Metadata get_metadata flag
             engine (ColumnTypesMetric.mk_batch_manager active cache)
             (<["batch_id" := VStr id]> mdk)
     | None =>
         ColumnTypesMetric._sqlalchemy Engine Metadata get_metadata flag engine
           (ColumnTypesMetric.mk_batch_manager active cache) mdk
         = GE.Throw (GE.GreatExpectationsError
             "batch_id could not be determined from domain kwargs and no active_batch_data is loaded into the execution engine")
     end).
Proof.
  split.
  - intros v Hv Hne. split.
    + intros active'. now apply (sqlalchemy_explicit_batch _ _ _ _ _ _ _ v).
    + intros Hmiss. unfold ColumnTypesMetric._sqlalchemy.
      rewrite Hv. cbn [ColumnTypesMetric.batch_data_cache].
      destruct v; [now elim Hne | now rewrite Hmiss ..].
  - intros Hnone. destruct active as [id |].
    + now apply sqlalchemy_default_batch.
    + unfold ColumnTypesMetric._sqlalchemy.
      now destruct Hnone as [-> | ->].
Qed.

Lemma X5_witness :
  ColumnTypesMetric._sqlalchemy unit (ColumnTypesMetric.table_selectable * option string)
    (fun _ t s => GE.Return (t, s)) true tt
    (ColumnTypesMetric.mk_batch_manager (Some "loaded")
       {["loaded" := ColumnTypesMetric.mk_batch_data
                       (ColumnTypesMetric.Table "events" None) None None]})
    {["batch_id" := VStr "other"]}
  = GE.Throw (GE.GreatExpectationsError
      "the requested batch is not available; please load the batch into the execution engine.") /\
  ColumnTypesMetric._sqlalchemy unit (ColumnTypesMetric.table_selectable * option string)
    (fun _ t s => GE.Return (t, s)) true tt
    (ColumnTypesMetric.mk_batch_manager None
       {["loaded" := ColumnTypesMetric.mk_batch_data
                       (ColumnTypesMetric.Table "events" None) None None]})
    ∅
  = GE.Throw (GE.GreatExpectationsError
      "batch_id could not be determined from domain kwargs and no active_batch_data is loaded into the execution engine").
Proof.
  split.
  - destruct (X5_sqlalchemy_batch_resolution unit _
                (fun _ t s => GE.Return (t, s))
                true tt (Some "loaded")
                {["loaded" := ColumnTypesMetric.mk_batch_data
                                (ColumnTypesMetric.Table "events" None)
                                None None]}
                {["batch_id" := VStr "other"]}) as [Hgiven _].
    destruct (Hgiven (VStr "other")) as [_ Hmiss];
      [reflexivity | discriminate |].
    apply Hmiss. reflexivity.
  - destruct (X5_sqlalchemy_batch_resolution unit _
                (fun _ t s => GE.Return (t, s))
                true tt None
                {["loaded" := ColumnTypesMetric.mk_batch_data
                                (ColumnTypesMetric.Table "events" None)
                                None None]}
                ∅) as [_ Hnone].
    apply Hnone. left. reflexivity.
Defined.

(** X6.  [_get_sqlalchemy_column_metadata] is one call of
    [get_sqlalchemy_column_metadata], whose metadata or error it hands on.
    With sqlalchemy importable a custom query is described by the query
    itself with no schema, whatever source table and schema the batch
    names.  A table is described by the source table name and source
    schema of the batch, and by the name and schema of the selectable
    where those are missing or empty.  A selectable of another class is
    described in the same way where it has the attributes [name] and
    [schema]; where the batch names no source table and the selectable has
    no [name], or the batch names no source schema and the selectable has
    no [schema], reading the attribute raises and nothing is looked up. *)
Theorem X6_sqlalchemy_selectable_resolution (Engine Metadata : Type)
    (get_metadata :
       Engine -> ColumnTypesMetric.table_selectable -> option string ->
       GE.outcome Metadata)
    (flag : bool) (engine : Engine)
    (source_table source_schema : option string)
    (selectable : ColumnTypesMetric.selectable) :
  match selectable with
  | ColumnTypesMetric.TextClause text =>
      ColumnTypesMetric._get_sqlalchemy_column_metadata Engine Metadata
        get_metadata true engine
        (ColumnTypesMetric.mk_batch_data selectable source_table source_schema)
      = get_metadata engine (ColumnTypesMetric.Query text) None
  | ColumnTypesMetric.Table name selectable_schema =>
      exists table schema,
        ColumnTypesMetric._get_sqlalchemy_column_metadata Engine Metadata
          get_metadata flag engine
          (ColumnTypesMetric.mk_batch_data selectable source_table source_schema)
        = get_metadata engine (ColumnTypesMetric.Named table) schema /\
        (forall s, source_table = Some s -> s <> "" -> table = s) /\
        (ColumnTypesMetric.absent source_table -> table = name) /\
        (forall s, source_schema = Some s -> s <> "" -> schema = Some s) /\
        (ColumnTypesMetric.absent source_schema -> schema = selectable_schema)
  | ColumnTypesMetric.OtherSelectable class_name name_attr schema_attr =>
      (forall name selectable_schema,
          name_attr = Some name -> schema_attr = Some selectable_schema ->
          ColumnTypesMetric._get_sqlalchemy_column_metadata Engine Metadata
            get_metadata flag engine
            (ColumnTypesMetric.mk_batch_data selectable source_table source_schema)
          = ColumnTypesMetric._get_sqlalchemy_column_metadata Engine Metadata
              get_metadata flag engine
              (ColumnTypesMetric.mk_batch_data (ColumnTypesMetric.Table name selectable_schema) source_table source_schema)) /\
      (ColumnTypesMetric.absent source_table -> name_attr = None ->
       ColumnTypesMetric._get_sqlalchemy_column_metadata Engine Metadata
         get_metadata flag engine
         (ColumnTypesMetric.mk_batch_data selectable source_table source_schema)
       = GE.Throw (GE.AttributeError
           ("'" +:+ class_name +:+ "' object has no attribute 'name'"))) /\
      (ColumnTypesMetric.absent source_schema -> schema_attr = None ->
       (exists s, source_table = Some s /\ s <> "") \/ name_attr <> None ->
       ColumnTypesMetric._get_sqlalchemy_column_metadata Engine Metadata
         get_metadata flag engine
         (ColumnTypesMetric.mk_batch_data selectable source_table source_schema)
       = GE.Throw (GE.AttributeError
           ("'" +:+ class_name +:+ "' object has no attribute 'schema'"))) /\
      (forall s t, source_table = Some s -> s <> "" ->
                   source_schema = Some t -> t <> "" ->
                   ColumnTypesMetric._get_sqlalchemy_column_metadata Engine Metadata
                     get_metadata flag engine
                     (ColumnTypesMetric.mk_batch_data selectable source_table source_schema)
                   = get_metadata engine (ColumnTypesMetric.Named s) (Some t))
  end.
Proof.
  unfold ColumnTypesMetric._get_sqlalchemy_column_metadata.
  cbn [ColumnTypesMetric.batch_selectable ColumnTypesMetric.source_table_name
       ColumnTypesMetric.source_schema_name].
  destruct selectable as [text | name selectable_schema
                         | class_name name_attr schema_attr].
  - reflexivity.
  - cbn [ColumnTypesMetric.selectable_name ColumnTypesMetric.selectable_schema].
    exists (match source_table with
            | Some s => if String.eqb s "" then name else s
            | None => name
            end),
           (match source_schema with
            | Some s => if String.eqb s "" then selectable_schema else Some s
            | None => selectable_schema
            end).
    split.
    + destruct flag, source_table as [s |], source_schema as [t |];
        cbn [ColumnTypesMetric.or_attr];
        try destruct (String.eqb s ""); try destruct (String.eqb t "");
        reflexivity.
    + repeat split.
      * intros s -> Hs. apply String.eqb_neq in Hs. now rewrite Hs.
      * now intros [-> | ->].
      * intros s -> Hs. apply String.eqb_neq in Hs. now rewrite Hs.
      * now intros [-> | ->].
  - cbn [ColumnTypesMetric.selectable_name ColumnTypesMetric.selectable_schema].
    split; [| split; [| split]].
    + intros name selectable_schema -> ->.
      now destruct flag.
    + intros Habsent ->.
      rewrite (or_attr_absent _ _ _ Habsent). now destruct flag.
    + intros Habsent -> Hname.
      rewrite (or_attr_absent source_schema _ _ Habsent).
      destruct Hname as [(s & -> & Hs) | Hname].
      * rewrite (or_attr_given _ _ _ Hs). now destruct flag.
      * destruct name_attr as [name |]; [| now elim Hname].
        cbn [ColumnTypesMetric.getattr].
        destruct source_table as [s |]; cbn [ColumnTypesMetric.or_attr];
          try destruct (String.eqb s ""); now destruct flag.
    + intros s t -> Hs -> Ht.
      rewrite (or_attr_given _ _ _ Hs), (or_attr_given _ _ _ Ht).
      now destruct flag.
Qed.

Lemma X6_witness :
  ColumnTypesMetric._get_sqlalchemy_column_metadata unit
    (ColumnTypesMetric.table_selectable * option string)
    (fun _ t s => GE.Return (t, s)) true tt
    (ColumnTypesMetric.mk_batch_data
       (ColumnTypesMetric.Table "events" (Some "public")) (Some "") None)
  = GE.Return (ColumnTypesMetric.Named "events", Some "public") /\
  ColumnTypesMetric._get_sqlalchemy_column_metadata unit
    (ColumnTypesMetric.table_selectable * option string)
    (fun _ t s => GE.Return (t, s)) true tt
    (ColumnTypesMetric.mk_batch_data
       (ColumnTypesMetric.OtherSelectable "Select" None (Some None)) None None)
  = GE.Throw (GE.AttributeError "'Select' object has no attribute 'name'").
Proof.
  split.
  - destruct (X6_sqlalchemy_selectable_resolution unit _
                (fun _ t s => GE.Return (t, s)) true tt (Some "") None
                (ColumnTypesMetric.Table "events" (Some "public")))
      as (table & schema & Hrun & _ & Htable & _ & Hschema).
    rewrite Hrun, Htable, Hschema; [reflexivity | now left | now right].
  - destruct (X6_sqlalchemy_selectable_resolution unit _
                (fun _ t s => GE.Return (t, s)) true tt None None
                (ColumnTypesMetric.OtherSelectable "Select" None (Some None)))
      as (_ & Hname & _).
    apply Hname; [now left | reflexivity].
Defined.

(** ** [_validate_success_key] *)

Section SuccessKeyFacts.

Import GE SuccessKey.

Lemma check_rules_Return (rules : list ((value -> bool) * string)) (v : value) :
  check_rules rules v = Return tt <-> Forall (fun r => r.1 v = true) rules.
Proof.
  induction rules as [| [rule msg] rules IH]; cbn [check_rules].
  - split; [constructor | reflexivity].
  - destruct (rule v) eqn:Hrule.
    + rewrite IH. split; [now constructor |].
      intros Hall. now inversion Hall.
    + split; [discriminate |]. intros Hall. inversion Hall as [| ? ? Hr _].
      cbn in Hr. congruence.
Qed.

Lemma check_rules_first_failure (pre post : list ((value -> bool) * string))
    (rule : value -> bool) (msg : string) (v : value) :
  Forall (fun r => r.1 v = true) pre -> rule v = false ->
  check_rules (pre ++ (rule, msg) :: post) v
  = Throw (InvalidExpectationKwargsError msg).
Proof.
  intros Hpre Hrule. induction Hpre as [| [r m] pre Hr Hpre IH];
    cbn [app check_rules].
  - now rewrite Hrule.
  - cbn in Hr. now rewrite Hr.
Qed.

End SuccessKeyFacts.

(** X7.  [_validate_success_key] returns without an error exactly when
    the parameter is absent and not required, or present with a value
    that every rule accepts; an absent optional parameter is accepted
    without any rule being asked, and an absent required one is reported
    by name. *)
Theorem X7_validate_success_key_accepts (param : string) (required : bool)
    (kwargs : gmap string value)
    (rules : list ((value -> bool) * string)) :
  (SuccessKey._validate_success_key param required kwargs rules
   = GE.Return tt
   <-> match kwargs !! param with
       | None => required = false
       | Some v => Forall (fun r => r.1 v = true) rules
       end) /\
  (kwargs !! param = None -> required = true ->
   SuccessKey._validate_success_key param required kwargs rules
   = GE.Throw (GE.InvalidExpectationKwargsError
       ("Parameter " +:+ param +:+
        " is required but was not found in configuration."))).
Proof.
  unfold SuccessKey._validate_success_key. split.
  - destruct (kwargs !! param) as [v |].
    + apply check_rules_Return.
    + destruct required; split; congruence.
  - now intros -> ->.
Qed.

Lemma X7_witness :
  SuccessKey._validate_success_key "strictly" false ∅ [(fun _ => false, "no")]
  = GE.Return tt /\
  SuccessKey._validate_success_key "strictly" true ∅ [(fun _ => false, "no")]
  = GE.Throw (GE.InvalidExpectationKwargsError
      "Parameter strictly is required but was not found in configuration.").
Proof.
  split.
  - apply (X7_validate_success_key_accepts "strictly" false ∅
             [(fun _ => false, "no")]). reflexivity.
  - apply (X7_validate_success_key_accepts "strictly" true ∅
             [(fun _ => false, "no")]); reflexivity.
Defined.

(** X8.  When a rule rejects the value of the parameter,
    [_validate_success_key] raises with the message of the first rule, in
    the order of the rules, that rejects it; the rules after it are not
    reported. *)
Theorem X8_validate_success_key_first_failure (param : string)
    (required : bool) (kwargs : gmap string value) (v : value)
    (pre post : list ((value -> bool) * string))
    (rule : value -> bool) (msg : string) :
  kwargs !! param = Some v ->
  Forall (fun r => r.1 v = true) pre ->
  rule v = false ->
  SuccessKey._validate_success_key param required kwargs
    (pre ++ (rule, msg) :: post)
  = GE.Throw (GE.InvalidExpectationKwargsError msg).
Proof.
  intros Hv Hpre Hrule. unfold SuccessKey._validate_success_key.
  rewrite Hv. now apply check_rules_first_failure.
Qed.

Lemma X8_witness :
  SuccessKey._validate_success_key "strictly" true
    {["strictly" := VInt 3]}
    ([(fun v => negb (bool_decide (v = VNone)), "strictly must not be None")]
     ++ (fun v => match v with VBool _ => true | _ => false end,
         "strictly must be a boolean")
     :: [(fun _ => false, "never reached")])
  = GE.Throw (GE.InvalidExpectationKwargsError "strictly must be a boolean").
Proof.
  apply (X8_validate_success_key_first_failure "strictly" true
           {["strictly" := VInt 3]} (VInt 3)).
  - reflexivity.
  - repeat constructor.
  - reflexivity.
Defined.

(** ** More on the "increasing" metric *)

Section IncreasingMore.

Variable ucd : N -> numeric_type.

(** The mask of adjacent differences is all true exactly when adjacent
    values are in the relation the comparison decides. *)
Lemma adjacent_differences_sorted (cmp : Z -> bool) (R : Z -> Z -> Prop)
    (a : list Z) :
  (forall x y, cmp (y - x) = true <-> R x y) ->
  Forall (fun n => 0 <= n <= INT64_MAX) a ->
  all (map cmp (np_diff a)) = true <-> Sorted R a.
Proof.
  intros Hcmp Hrange. destruct a as [| x a]; [now split; constructor |].
  revert x Hrange. induction a as [| y a IH]; intros x Hrange.
  - split; [repeat constructor | reflexivity].
  - inversion Hrange as [| ? ? Hx Hrest]; subst.
    inversion Hrest as [| ? ? Hy _]; subst.
    rewrite np_diff_step. cbn [map all forallb].
    fold (all (map cmp (np_diff (y :: a)))).
    rewrite wrap_small
      by (unfold INT64_MAX in *; change (64 - 1) with 63; lia).
    rewrite andb_true_iff, (IH y Hrest), Hcmp. split.
    + intros [Hxy Hsorted]. constructor; [exact Hsorted | now constructor].
    + intros Hsorted. apply Sorted_inv in Hsorted as [Hsorted Hhd].
      apply HdRel_inv in Hhd. now split.
Qed.

Lemma forallb_decimal_digit (column : list str) :
  forallb (str_isdecimal ucd) column = true ->
  forallb (str_isdigit ucd) column = true.
Proof.
  rewrite !forallb_forall. intros Hall s Hin.
  apply str_isdecimal_isdigit, Hall, Hin.
Qed.

Lemma astype_int_values (c1 : list str) :
  forall c2,
    forallb (str_isdecimal ucd) c1 = true ->
    forallb (str_isdecimal ucd) c2 = true ->
    map (int ucd) c1 = map (int ucd) c2 ->
    astype_int ucd c1 = astype_int ucd c2.
Proof.
  induction c1 as [| s1 c1 IH]; intros [| s2 c2] Hd1 Hd2 Heq;
    try discriminate Heq; [reflexivity |].
  cbn [map] in Heq. injection Heq as Hs Hrest.
  cbn [forallb] in Hd1, Hd2.
  apply andb_prop in Hd1 as [Hs1 Hd1]. apply andb_prop in Hd2 as [Hs2 Hd2].
  cbn [astype_int]. now rewrite Hs1, Hs2, Hs, (IH c2 Hd1 Hd2 Hrest).
Qed.

Lemma leading_zero (s : str) :
  str_isdecimal ucd s = true ->
  str_isdecimal ucd (text "0" ++ s) = true /\
  int ucd (text "0" ++ s) = int ucd s.
Proof.
  intros Hd. split; [| reflexivity].
  destruct s as [| c s]; [discriminate |]. exact Hd.
Qed.

Lemma length_lag {A} (column : list (option A)) :
  length (lag column) = length column.
Proof.
  destruct column as [| x column]; [reflexivity |].
  cbn [lag length]. f_equal. revert x.
  induction column as [| y column IH]; intros x; [reflexivity |].
  change (removelast (x :: y :: column)) with (x :: removelast (y :: column)).
  cbn [length]. now rewrite IH.
Qed.

Lemma count_occ_bool_total (ar : list bool) :
  (count_occ bool_dec ar false + count_occ bool_dec ar true)%nat = length ar.
Proof.
  induction ar as [| b ar IH]; [reflexivity |].
  destruct b; cbn [count_occ length];
    repeat match goal with
           | |- context [bool_dec ?x ?y] => destruct (bool_dec x y)
           end; try congruence; lia.
Qed.

End IncreasingMore.

(** X9.  On a column of strings of digits whose values fit 64 bits, the
    expectation succeeds exactly when the integer values are in order:
    each value at least the one before it, or greater than it when
    [strictly] holds.  The values are compared as integers, not as
    strings. *)
Theorem X9_success_iff_values_in_order (ucd : N -> numeric_type)
    (column : list str)
    (kwargs : gmap string value) (MAP : string)
    (cdk adk : gmap string value) :
  forallb (digits_upto ucd INT64_MAX) column = true ->
  exists mask verdict,
    _pandas ucd column kwargs = Ok mask /\
    _validate MAP
      {["column_values.string_integers.increasing." +:+ MAP := (mask, cdk, adk)]}
    = Ok verdict /\
    (success verdict = true <->
     if get_or_False kwargs "strictly"
     then Sorted Z.lt (map (int ucd) column)
     else Sorted Z.le (map (int ucd) column)).
Proof.
  intros Hcolumn. eexists _, _. split; [now apply pandas_mask |].
  unfold _validate. rewrite lookup_singleton_eq. split; [reflexivity |].
  cbn [success fst].
  apply forallb_digits_upto in Hcolumn as (_ & _ & Hrange).
  destruct (get_or_False kwargs "strictly").
  - apply adjacent_differences_sorted; [| exact Hrange].
    intros x y. rewrite Z.gtb_ltb, Z.ltb_lt. lia.
  - apply adjacent_differences_sorted; [| exact Hrange].
    intros x y. rewrite Z.geb_leb, Z.leb_le. lia.
Qed.

Lemma X9_witness :
  exists mask verdict,
    _pandas ucd_excerpt (map text ["9"; "11"]) {["strictly" := VBool true]} = Ok mask /\
    _validate "map"
      {["column_values.string_integers.increasing." +:+ "map" := (mask, ∅, ∅)]}
    = Ok verdict /\
    success verdict = true.
Proof.
  destruct (X9_success_iff_values_in_order ucd_excerpt (map text ["9"; "11"])
              {["strictly" := VBool true]} "map" ∅ ∅ eq_refl)
    as (mask & verdict & Hmask & Hverdict & Hiff).
  exists mask, verdict. split; [exact Hmask |]. split; [exact Hverdict |].
  apply Hiff. cbn. repeat constructor.
Defined.

(** X10.  In the array-vectorized variant, strictness only removes
    passes: on the same column the strict and the non-strict call raise
    the same error or return masks of the same length, and every element
    that passes the strict comparison passes the non-strict one. *)
Theorem X10_strict_mask_implies_non_strict (ucd : N -> numeric_type)
    (column : list str)
    (strict loose : gmap string value) :
  get_or_False strict "strictly" = true ->
  get_or_False loose "strictly" = false ->
  match _pandas ucd column strict, _pandas ucd column loose with
  | Ok strict_mask, Ok loose_mask =>
      length strict_mask = length loose_mask /\
      forall i : nat, strict_mask !! i = Some true ->
                      loose_mask !! i = Some true
  | Raise e1, Raise e2 => e1 = e2
  | _, _ => False
  end.
Proof.
  intros Hstrict Hloose. unfold _pandas. rewrite Hstrict, Hloose.
  destruct (if forallb (str_isdigit ucd) column then astype_int ucd column
            else cast_error) as [temp_column | e]; cbn [Py.bind];
    [| reflexivity].
  split; [now rewrite !length_map |].
  intros i. rewrite !list_lookup_fmap.
  destruct (np_diff temp_column !! i) as [d |]; cbn; [| discriminate].
  intros [= Hd]. f_equal. apply Z.geb_le. apply Z.gtb_lt in Hd. lia.
Qed.

Lemma X10_witness :
  match _pandas ucd_excerpt (map text ["1"; "1"; "2"]) {["strictly" := VBool true]},
        _pandas ucd_excerpt (map text ["1"; "1"; "2"]) ∅ with
  | Ok strict_mask, Ok loose_mask =>
      length strict_mask = length loose_mask /\
      forall i : nat, strict_mask !! i = Some true ->
                      loose_mask !! i = Some true
  | Raise e1, Raise e2 => e1 = e2
  | _, _ => False
  end.
Proof.
  apply (X10_strict_mask_implies_non_strict ucd_excerpt
           (map text ["1"; "1"; "2"])
           {["strictly" := VBool true]} ∅); reflexivity.
Defined.

(** X11.  The two variants read [strictly] differently.  The
    array-vectorized variant uses its truth value, so any two kwargs
    whose [strictly] has the same truth value give the same result; the
    distributed-windowed variant compares with [is True], so every value
    other than [True] acts as [False].  A truthy value such as [1] is
    therefore strict for the one and not strict for the other. *)
Theorem X11_strictly_truth_value_versus_identity (ucd : N -> numeric_type)
    (cast_other : str -> option Z) (column : list str)
    (k1 k2 : gmap string value) (domain : compute_domain)
    (mdk mvk : gmap string value)
    (metrics : gmap string (list column_metadata)) (v : value) :
  (get_or_False k1 "strictly" = get_or_False k2 "strictly" ->
   _pandas ucd column k1 = _pandas ucd column k2) /\
  (v <> VBool true ->
   _spark cast_other domain mdk (<["strictly" := v]> mvk) metrics
   = _spark cast_other domain mdk (<["strictly" := VBool false]> mvk) metrics) /\
  _pandas ucd column (<["strictly" := VInt 1]> k1)
  = _pandas ucd column (<["strictly" := VBool true]> k1).
Proof.
  split; [| split].
  - intros Hsame. unfold _pandas. now rewrite Hsame.
  - intros Hv. unfold _spark.
    destruct (getitem mdk "column") as [column_name | e];
      [cbn [Py.bind] | reflexivity].
    destruct (getitem metrics "table.column_types") as [table_columns | e];
      [cbn [Py.bind] | reflexivity].
    destruct (List.filter _ table_columns) as [| col rest];
      [reflexivity | cbn [Py.bind]].
    destruct (is_StringType (md_type col)); [cbn [Py.bind] | reflexivity].
    destruct (existsb isNull _); [reflexivity |].
    unfold getitem. rewrite !lookup_insert_eq. cbn [Py.bind].
    rewrite (bool_decide_eq_false_2 _ Hv).
    now rewrite bool_decide_eq_false_2 by discriminate.
  - unfold _pandas, get_or_False. now rewrite !lookup_insert_eq.
Qed.

Lemma X11_witness :
  _pandas ucd_excerpt (map text ["3"; "3"]) {["strictly" := VInt 1]} = Ok [false] /\
  _spark (fun _ => None) (mk_compute_domain [Some (text "3"); Some (text "3")] ∅ ∅)
    {["column" := VStr "a"]} {["strictly" := VInt 1]}
    {["table.column_types" := [mk_metadata "a" (Atomic StringType)]]}
  = Ok ([true], ∅, ∅).
Proof.
  destruct (X11_strictly_truth_value_versus_identity ucd_excerpt
              (fun _ => None) (map text ["3"; "3"]) {["strictly" := VInt 1]} {["strictly" := VBool true]}
              (mk_compute_domain [Some (text "3"); Some (text "3")] ∅ ∅)
              {["column" := VStr "a"]} ∅
              {["table.column_types" := [mk_metadata "a" (Atomic StringType)]]}
              (VInt 1)) as (Hpandas & Hspark & _).
  split.
  - rewrite Hpandas; reflexivity.
  - change ({["strictly" := VInt 1]} : gmap string value)
      with (<["strictly" := VInt 1]> (∅ : gmap string value)).
    rewrite Hspark; [vm_compute; reflexivity | discriminate].
Defined.

(** X12.  The distributed-windowed variant checks the column before it
    reads any data: without "column" in the domain kwargs, or without
    table.column_types among the metrics, it raises the missing-key error;
    when no entry of table.column_types has the name of the column it
    raises the index error; when the first entry of that name is not of
    the string type it raises the type error, whatever the cells hold. *)
Theorem X12_spark_column_checks (cast_other : str -> option Z)
    (domain : compute_domain) (mdk mvk : gmap string value)
    (metrics : gmap string (list column_metadata)) :
  (mdk !! "column" = None ->
   _spark cast_other domain mdk mvk metrics = Raise (KeyError "column")) /\
  (forall column_name, mdk !! "column" = Some column_name ->
     (metrics !! "table.column_types" = None ->
      _spark cast_other domain mdk mvk metrics
      = Raise (KeyError "table.column_types")) /\
     (forall table_columns,
        metrics !! "table.column_types" = Some table_columns ->
        (Forall (fun col => VStr (md_name col) <> column_name) table_columns ->
         _spark cast_other domain mdk mvk metrics
         = Raise (IndexError "list index out of range")) /\
        (forall before col after,
           table_columns = before ++ col :: after ->
           Forall (fun c => VStr (md_name c) <> column_name) before ->
           VStr (md_name col) = column_name ->
           is_StringType (md_type col) = false ->
           _spark cast_other domain mdk mvk metrics
           = Raise (TypeError
               "Column must be a string-type capable of being cast to int.")))).
Proof.
  unfold _spark, getitem. split; [now intros -> |].
  intros column_name ->. split; [now intros -> |].
  intros table_columns ->. cbn [Py.bind]. split.
  - intros Hnone.
    assert (Hfilter : List.filter
              (fun col => bool_decide (VStr (md_name col) = column_name))
              table_columns = []).
    { induction Hnone as [| c cs Hc _ IH]; [reflexivity |].
      cbn [List.filter]. now rewrite (bool_decide_eq_false_2 _ Hc). }
    now rewrite Hfilter.
  - intros before col after -> Hbefore Hcol Htype.
    assert (Hfilter : exists rest, List.filter
              (fun c => bool_decide (VStr (md_name c) = column_name))
              (before ++ col :: after) = col :: rest).
    { induction Hbefore as [| c cs Hc _ IH]; cbn [app List.filter].
      - rewrite (bool_decide_eq_true_2 _ Hcol). now eexists.
      - now rewrite (bool_decide_eq_false_2 _ Hc). }
    destruct Hfilter as [rest ->]. cbn [Py.bind]. now rewrite Htype.
Qed.

Lemma X12_witness :
  _spark (fun _ => None) (mk_compute_domain [Some (text "1"); Some (text "2")] ∅ ∅)
    {["column" := VStr "a"]} {["strictly" := VBool false]}
    {["table.column_types" := [mk_metadata "b" (Atomic StringType);
                               mk_metadata "a" (Atomic LongType);
                               mk_metadata "a" (Atomic StringType)]]}
  = Raise (TypeError "Column must be a string-type capable of being cast to int.").
Proof.
  destruct (X12_spark_column_checks (fun _ => None)
              (mk_compute_domain [Some (text "1"); Some (text "2")] ∅ ∅)
              {["column" := VStr "a"]} {["strictly" := VBool false]}
              {["table.column_types" := [mk_metadata "b" (Atomic StringType);
                                         mk_metadata "a" (Atomic LongType);
                                         mk_metadata "a" (Atomic StringType)]]})
    as [_ Hcolumn].
  destruct (Hcolumn (VStr "a")) as [_ Htable]; [reflexivity |].
  destruct (Htable [mk_metadata "b" (Atomic StringType);
                    mk_metadata "a" (Atomic LongType);
                    mk_metadata "a" (Atomic StringType)]) as [_ Hfirst];
    [reflexivity |].
  apply (Hfirst [mk_metadata "b" (Atomic StringType)]
           (mk_metadata "a" (Atomic LongType))
           [mk_metadata "a" (Atomic StringType)]).
  - reflexivity.
  - repeat constructor. discriminate.
  - reflexivity.
  - reflexivity.
Defined.

(** X13.  Whenever the distributed-windowed variant returns, the checks on
    the column have succeeded, [strictly] is among the value kwargs, no
    cell is null after the cast, the mask has one element fewer than the
    column has rows, and the two kwargs dictionaries of the compute domain
    are handed back unchanged. *)
Theorem X13_spark_result_shape (cast_other : str -> option Z)
    (domain : compute_domain) (mdk mvk : gmap string value)
    (metrics : gmap string (list column_metadata))
    (mask : list bool) (cdk adk : gmap string value) :
  _spark cast_other domain mdk mvk metrics = Ok (mask, cdk, adk) ->
  string_column mdk metrics = true /\
  is_Some (mvk !! "strictly") /\
  Forall (fun cell => cast_IntegerType cast_other cell <> None)
    (df_column domain) /\
  length mask = (length (df_column domain) - 1)%nat /\
  cdk = compute_domain_kwargs domain /\
  adk = accessor_domain_kwargs domain.
Proof.
  unfold _spark, string_column, getitem.
  destruct (mdk !! "column") as [column_name |]; [| discriminate].
  destruct (metrics !! "table.column_types") as [table_columns |];
    [| discriminate].
  cbn [Py.bind].
  destruct (List.filter _ table_columns) as [| col rest]; [discriminate |].
  cbn [Py.bind].
  destruct (is_StringType (md_type col)); [cbn [Py.bind] | discriminate].
  destruct (existsb isNull _) eqn:Hnull; [discriminate |].
  destruct (mvk !! "strictly") as [strictly |]; [| discriminate].
  cbn [Py.bind]. intros [= <- <- <-].
  split; [reflexivity |]. split; [now eexists |]. split.
  - apply Forall_forall. intros cell Hin Hcast.
    apply list_elem_of_In in Hin.
    rewrite (null_cell_found cast_other _ _ Hin Hcast) in Hnull.
    discriminate.
  - split; [| now split].
    assert (Hlen : forall (f : option Z -> bool) (g : option Z -> option Z)
                          (diff : list (option Z)),
               length (tail (map f (map g diff))) = (length diff - 1)%nat).
    { intros f g diff. destruct diff; cbn [map tail length];
        rewrite ?length_map; lia. }
    destruct (bool_decide (strictly = VBool true)); rewrite Hlen;
      now rewrite length_zip_with, length_lag, Nat.min_id, length_map.
Qed.

Lemma X13_witness :
  length [true; false]
  = (length (df_column (mk_compute_domain [Some (text "1"); Some (text "2"); Some (text "0")] ∅ ∅))
     - 1)%nat.
Proof.
  apply (X13_spark_result_shape (fun _ => None)
           (mk_compute_domain [Some (text "1"); Some (text "2"); Some (text "0")] ∅ ∅)
           {["column" := VStr "a"]} {["strictly" := VBool false]}
           {["table.column_types" := [mk_metadata "a" (Atomic StringType)]]}
           [true; false] ∅ ∅).
  vm_compute. reflexivity.
Defined.

(** X14.  The verdict raises the type error when the map metric is not
    among the metrics.  Otherwise its observed value has at most two
    entries, [False] before [True], the counts add up to the length of
    the mask, and the verdict succeeds exactly when [False] is not among
    the observed values. *)
Theorem X14_observed_value_summarises_mask (MAP : string)
    (metrics : gmap string metric_value) :
  match metrics !! ("column_values.string_integers.increasing." +:+ MAP) with
  | None =>
      _validate MAP metrics
      = Raise (TypeError "'NoneType' object is not subscriptable")
  | Some (mask, _, _) =>
      exists verdict,
        _validate MAP metrics = Ok verdict /\
        (length (observed_value verdict).1 <= 2)%nat /\
        Sorted (fun a b => a = false /\ b = true) (observed_value verdict).1 /\
        list_sum (observed_value verdict).2 = length mask /\
        (success verdict = true <-> ~ In false (observed_value verdict).1)
  end.
Proof.
  unfold _validate.
  destruct (metrics !! _) as [[[mask cdk] adk] |]; [| reflexivity].
  eexists. split; [reflexivity |]. cbn [success observed_value fst].
  rewrite np_unique_counts_eq. cbn zeta.
  assert (Htotal := count_occ_bool_total mask).
  assert (Hall : all mask = true <-> count_occ bool_dec mask false = 0%nat).
  { rewrite all_true_iff, <- count_occ_not_In. split.
    - intros Htrue Hin. specialize (Htrue false Hin). discriminate.
    - intros Hnot [|] Hin; [reflexivity | contradiction]. }
  rewrite Hall.
  destruct (count_occ bool_dec mask false) as [| nf],
           (count_occ bool_dec mask true) as [| nt];
    cbn [fst snd app length list_sum foldr In].
  all: repeat split; try lia; repeat constructor.
Qed.

(** X15.  Declaring the table.column_types dependency leaves every other
    dependency of the base provider as it is and replaces one the base
    had under that name; the domain kwargs of the new dependency are part
    of the metric's, and are the metric's when those have no "column". *)
Theorem X15_dependencies_frame
    (super_get_evaluation_dependencies :
       MetricConfiguration -> gmap string MetricConfiguration)
    (metric : MetricConfiguration) :
  (forall k, k <> "table.column_types" ->
     _get_evaluation_dependencies super_get_evaluation_dependencies metric !! k
     = super_get_evaluation_dependencies metric !! k) /\
  (forall dependency,
     _get_evaluation_dependencies super_get_evaluation_dependencies metric
       !! "table.column_types" = Some dependency ->
     metric_domain_kwargs dependency ⊆ metric_domain_kwargs metric /\
     (metric_domain_kwargs metric !! "column" = None ->
      metric_domain_kwargs dependency = metric_domain_kwargs metric)).
Proof.
  unfold _get_evaluation_dependencies. split.
  - intros k Hk. now rewrite lookup_insert_ne.
  - intros dependency. rewrite lookup_insert_eq. intros [= <-].
    cbn [metric_domain_kwargs]. split; [apply map_filter_subseteq |].
    intros Hnone. apply map_filter_id. intros k x Hx Hk.
    cbn in Hk. subst k. congruence.
Qed.

Lemma X15_witness :
  _get_evaluation_dependencies
    (fun m => {[metric_name m := m]})
    (mk_MetricConfiguration "column_values.string_integers.increasing.map"
       {["column" := VStr "a"; "batch_id" := VStr "b1"]} ∅)
    !! "column_values.string_integers.increasing.map"
  = Some (mk_MetricConfiguration "column_values.string_integers.increasing.map"
            {["column" := VStr "a"; "batch_id" := VStr "b1"]} ∅).
Proof.
  destruct (X15_dependencies_frame (fun m => {[metric_name m := m]})
              (mk_MetricConfiguration
                 "column_values.string_integers.increasing.map"
                 {["column" := VStr "a"; "batch_id" := VStr "b1"]} ∅))
    as [Hframe _].
  rewrite Hframe by discriminate. apply lookup_singleton_eq.
Defined.

(** X16.  The array-vectorized variant sees the strings of a column only
    through their integer values: columns of strings of decimal digits with
    the same values give the same result, so a value written with a
    leading zero is the value without it. *)
Theorem X16_pandas_reads_integer_values (ucd : N -> numeric_type)
    (c1 c2 : list str) (kwargs : gmap string value) :
  forallb (str_isdecimal ucd) c1 = true ->
  forallb (str_isdecimal ucd) c2 = true ->
  map (int ucd) c1 = map (int ucd) c2 ->
  _pandas ucd c1 kwargs = _pandas ucd c2 kwargs /\
  (forall before s after,
      c1 = before ++ s :: after ->
      _pandas ucd (before ++ (text "0" ++ s) :: after) kwargs
      = _pandas ucd c1 kwargs).
Proof.
  intros Hd1 Hd2 Hvalues.
  assert (Hsame : forall a b,
             forallb (str_isdecimal ucd) a = true ->
             forallb (str_isdecimal ucd) b = true ->
             map (int ucd) a = map (int ucd) b ->
             _pandas ucd a kwargs = _pandas ucd b kwargs).
  { intros a b Ha Hb Hab. unfold _pandas.
    now rewrite (forallb_decimal_digit ucd a Ha),
      (forallb_decimal_digit ucd b Hb), (astype_int_values ucd a b Ha Hb Hab). }
  split; [now apply Hsame |].
  intros before s after ->.
  assert (Hparts := Hd1). rewrite forallb_app in Hparts.
  cbn [forallb] in Hparts.
  apply andb_prop in Hparts as [Hbefore [Hs Hafter]%andb_prop].
  destruct (leading_zero ucd s Hs) as [Hzero Hint].
  apply Hsame; [| exact Hd1 |].
  - rewrite forallb_app. cbn [forallb]. now rewrite Hbefore, Hzero, Hafter.
  - now rewrite !map_app; cbn [map]; rewrite Hint.
Qed.

Lemma X16_witness :
  _pandas ucd_excerpt (map text ["007"; "10"]) ∅
  = _pandas ucd_excerpt (map text ["7"; "0010"]) ∅.
Proof.
  apply (X16_pandas_reads_integer_values ucd_excerpt
           (map text ["007"; "10"]) (map text ["7"; "0010"]) ∅);
    reflexivity.
Defined.

(** X17.  On a column of strings of decimal digits whose values fit 64
    bits, where the array-vectorized variant returns a mask, the
    distributed-windowed variant returns the same mask when every string
    is made of the ASCII digits 0 to 9 and its value fits 32 bits, and
    raises the type error otherwise: the only columns the two variants
    read alike are those of ASCII digits within 32 bits. *)
Theorem X17_backends_agree_on_ascii_digits_within_32_bits
    (ucd : N -> numeric_type) (cast_other : str -> option Z)
    (column : list str) (strictly : bool)
    (cdk adk mdk mvk : gmap string value)
    (metrics : gmap string (list column_metadata)) :
  forallb (digits_upto ucd INT64_MAX) column = true ->
  string_column mdk metrics = true ->
  mvk !! "strictly" = Some (VBool strictly) ->
  exists mask,
    _pandas ucd column mvk = Ok mask /\
    _spark cast_other (mk_compute_domain (Some <$> column) cdk adk)
      mdk mvk metrics
    = if forallb (ascii_digits_upto INT32_MAX) column
      then Ok (mask, cdk, adk)
      else Raise (TypeError
             "Column must be a string-type capable of being cast to int.").
Proof.
  intros Hcolumn Hchecks Hstrictly.
  exists (map (fun d => if strictly then d >? 0 else d >=? 0)
            (np_diff (map (int ucd) column))).
  split.
  - rewrite pandas_mask by exact Hcolumn.
    unfold get_or_False. rewrite Hstrictly. reflexivity.
  - rewrite (spark_after_checks _ _ _ _ _ Hchecks).
    cbn [df_column compute_domain_kwargs accessor_domain_kwargs]. cbn zeta.
    destruct (forallb (ascii_digits_upto INT32_MAX) column) eqn:Hascii.
    + rewrite (cast_digit_column _ _ Hascii), no_null_in_values.
      unfold getitem. rewrite Hstrictly. cbn [Py.bind].
      destruct (ascii_column_values ucd _ _ Hascii) as [Hdigits Hvalues].
      apply forallb_digits_upto in Hdigits as (_ & _ & Hrange).
      rewrite <- (spark_tail_agree strictly _ Hrange), Hvalues.
      destruct strictly.
      * rewrite bool_decide_eq_true_2 by reflexivity. reflexivity.
      * rewrite bool_decide_eq_false_2 by discriminate. reflexivity.
    + assert (Hsome : exists s, In s column /\
                                ascii_digits_upto INT32_MAX s = false).
      { clear - Hascii. induction column as [| s column IH]; [discriminate |].
        cbn [forallb] in Hascii.
        destruct (ascii_digits_upto INT32_MAX s) eqn:Hs.
        - destruct (IH Hascii) as (s' & Hin & Hs'). exists s'.
          split; [now right | exact Hs'].
        - exists s. split; [now left | exact Hs]. }
      destruct Hsome as (s & Hin & Hs).
      apply forallb_digits_upto in Hcolumn as (_ & Hdec & _).
      rewrite forallb_forall in Hdec.
      rewrite (null_cell_found cast_other (Some <$> column) (Some s));
        [reflexivity | | exact (decimal_cast_null ucd cast_other s (Hdec s Hin) Hs)].
      change (In (Some s) (map Some column)). now apply in_map.
Qed.

Lemma X17_witness :
  exists mask,
    _pandas ucd_excerpt (map text ["0"; "1"; "2"; "3"; "3"; "9"; "11"])
      {["strictly" := VBool true]}
    = Ok mask /\
    _spark (fun _ => None)
      (mk_compute_domain
         (Some <$> map text ["0"; "1"; "2"; "3"; "3"; "9"; "11"]) ∅ ∅)
      {["column" := VStr "a"]} {["strictly" := VBool true]}
      {["table.column_types" := [mk_metadata "a" (Atomic StringType)]]}
    = Ok (mask, ∅, ∅).
Proof.
  apply (X17_backends_agree_on_ascii_digits_within_32_bits ucd_excerpt
           (fun _ => None)
           (map text ["0"; "1"; "2"; "3"; "3"; "9"; "11"]) true ∅ ∅
           {["column" := VStr "a"]} {["strictly" := VBool true]}
           {["table.column_types" := [mk_metadata "a" (Atomic StringType)]]}).
  - reflexivity.
  - vm_compute. reflexivity.
  - vm_compute. reflexivity.
Defined.

(** X18.  A column that holds a string [int] does not read (a string
    that is no string of decimal digits) never gives a mask with the
    array-vectorized variant.  When such a string passes [isdigit] with
    the rest of the column, as a superscript digit does, the cast raises
    in place of the digit check: the error is not the type error, and it
    is the value error that names the string when the strings before it
    are read. *)
Theorem X18_digit_that_is_no_decimal_raises (ucd : N -> numeric_type)
    (column : list str) (kwargs : gmap string value) (s : str) :
  In s column -> str_isdecimal ucd s = false ->
  raises (_pandas ucd column kwargs) /\
  (forall mask, _pandas ucd column kwargs <> Ok mask) /\
  (forallb (str_isdigit ucd) column = true ->
   (exists e,
       _pandas ucd column kwargs = Raise e /\
       e <> TypeError "Column must be a string-type capable of being cast to int.") /\
   (forall before after,
       column = before ++ s :: after ->
       forallb (digits_upto ucd INT64_MAX) before = true ->
       _pandas ucd column kwargs = Raise (ValueError_invalid_literal s))).
Proof.
  intros Hin Hs.
  assert (Hraises : raises (_pandas ucd column kwargs)).
  { unfold _pandas. destruct (forallb (str_isdigit ucd) column).
    - destruct (astype_int_raises ucd column s Hin Hs) as [e He].
      rewrite He. now exists e.
    - now eexists. }
  split; [exact Hraises |]. split.
  - intros mask Hmask. destruct Hraises as [e He]. congruence.
  - intros Hall. split.
    + destruct (astype_int_raises ucd column s Hin Hs) as [e He].
      exists e. unfold _pandas. rewrite Hall, He. split; [reflexivity |].
      exact (astype_int_error ucd column e He).
    + intros before after -> Hbefore.
      assert (Hcast : astype_int ucd (before ++ s :: after)
                      = Raise (ValueError_invalid_literal s)).
      { clear Hall Hin Hraises.
        induction before as [| s0 before IH]; cbn [app astype_int].
        - now rewrite Hs.
        - cbn [forallb] in Hbefore.
          apply andb_prop in Hbefore as [Hs0 Hbefore].
          destruct (digits_upto_spec ucd _ _ Hs0) as [Hd Hr]. rewrite Hd.
          destruct (Z.leb_spec (int ucd s0) INT64_MAX) as [_ | Hgt]; [| lia].
          now rewrite (IH Hbefore). }
      unfold _pandas. now rewrite Hall, Hcast.
Qed.

Lemma X18_witness :
  _pandas ucd_excerpt [text "1"; [178%N]] {["strictly" := VBool false]}
  = Raise (ValueError_invalid_literal [178%N]).
Proof.
  destruct (X18_digit_that_is_no_decimal_raises ucd_excerpt
              [text "1"; [178%N]] {["strictly" := VBool false]} [178%N]
              ltac:(simpl; tauto) eq_refl) as (_ & _ & Hcast).
  destruct (Hcast eq_refl) as [_ Hvalue].
  apply (Hvalue [text "1"] []); reflexivity.
Defined.
